(** * scripts/validate_test_result.py: judging a CLI answer through a
      structured-output service

    A shallow embedding of the script and the properties of its two parts,
    the class TestValidator and the entry point main.

    What lies outside the script enters through the record [World]: the
    environment, the constructor and the create call of the OpenAI client,
    json.loads, and the wording the interpreter gives its own TypeErrors.
    Every theorem holds for all worlds.  The state of the process (root log
    level, the two output streams, the requests sent so far) is threaded
    through the monad [M], which also carries Python's exceptions.

    Scope of the model:
    - main is modelled from the point where parser.parse_args() has
      returned; a command line argparse rejects never reaches that point;
    - a called library raises instances of Exception; SystemExit, which is
      none, is raised by sys.exit only;
    - stdout records the document handed to print(json.dumps(.)), not the
      text json.dumps makes of it; [dumps_is_json] tells when that text is
      JSON;
    - [requests] counts the calls of create.  How many HTTP requests the
      client makes of one call is the business of the client, which retries
      on its own; [Client] has its policy and [posts_during] the count;
    - stderr holds the lines the script writes itself.  With --verbose the
      root handler also lets through what the libraries log at INFO; those
      lines are not in the model;
    - a float is an IEEE binary64 number, as in Python. *)

From Stdlib Require Import String Ascii List ZArith Bool Lia PrimFloat Uint63.
From Stdlib Require FloatOps FloatAxioms SpecFloat.
Import ListNotations.
Open Scope string_scope.
Open Scope Z_scope.

(** ** Python values *)

Module Py.

(** The values json.loads can build and json.dumps can write.  A dict keeps
    its items in insertion order; its keys are strings, as in JSON. *)
#[warnings="-register-all"] Inductive value : Type :=
| PNone
| PBool (b : bool)
| PInt (z : Z)
| PFloat (f : float)
| PStr (s : string)
| PList (l : list value)
| PDict (d : list (string * value)).

(** d.get(k) *)
Fixpoint lookup (k : string) (d : list (string * value)) : option value :=
  match d with
  | [] => None
  | (k', v) :: d' => if String.eqb k k' then Some v else lookup k d'
  end.

Definition keys (d : list (string * value)) : list string := map fst d.

(** k in ks *)
Definition mem (k : string) (ks : list string) : bool := existsb (String.eqb k) ks.

(** bool(v): the truth value an if, an or and a not take of v. *)
Definition truthy (v : value) : bool :=
  match v with
  | PNone => false
  | PBool b => b
  | PInt z => negb (z =? 0)
  | PFloat f => negb (PrimFloat.eqb f 0)
  | PStr s => negb (String.eqb s EmptyString)
  | PList l => match l with [] => false | _ :: _ => true end
  | PDict d => match d with [] => false | _ :: _ => true end
  end.

(** An Optional[str] as a value: None or a str. *)
Definition of_optional (o : option string) : value :=
  match o with
  | Some s => PStr s
  | None => PNone
  end.

(** a or b, on two Optional[str]. *)
Definition or_else (a b : option string) : option string :=
  if truthy (of_optional a) then a else b.

(** *** Exceptions *)

(** An instance of (a subclass of) Exception: its class and the text str(e)
    gives.  The named constructors are the classes the script and the
    interpreter raise themselves; [LibraryError] is whatever a called library
    raises (APIConnectionError, AuthenticationError, JSONDecodeError, ...). *)
Inductive Exception : Type :=
| ValueError (msg : string)
| TypeError (msg : string)
| IndexError (msg : string)
| LibraryError (class : string) (msg : string).

Definition str (e : Exception) : string :=
  match e with
  | ValueError msg | TypeError msg | IndexError msg | LibraryError _ msg => msg
  end.

(** What a raise statement can carry.  SystemExit derives from BaseException
    only, so an except Exception clause lets it through. *)
Inductive BaseException : Type :=
| Exn (e : Exception)
| SystemExit (code : Z).

End Py.
Import Py.

(** ** The exchange with the service *)

(** The keyword arguments of client.chat.completions.create.  Each message
    and the response format are the dict literals of the call. *)
Record Request : Type := {
  model : string;
  messages : list value;
  response_format : value;
  temperature : float
}.

(** What the script reads of the reply: response.choices[0].message.content,
    which the client types as Optional[str]. *)
Record ChatCompletionMessage : Type := { content : option string }.
Record Choice : Type := { message : ChatCompletionMessage }.
Record ChatCompletion : Type := { choices : list Choice }.

(** The client object; it holds the key it was built with. *)
Record OpenAI : Type := { client_api_key : option string }.

(** The ways a call f( **kw ) fails to bind its arguments. *)
Inductive BindFault : Type :=
| NotAMapping (v : value)
| UnexpectedKeyword (k : string)
| MissingArguments (names : list string).

(** Everything outside the script.  [completions_create] answers a request
    given the client and the requests that went before it, so that a second
    attempt could be told from the first. *)
Record World : Type := {
  environ_get : string -> option string;
  OpenAI_init : option string -> option Exception;
  completions_create : OpenAI -> list Request -> Request -> Exception + ChatCompletion;
  json_loads : option string -> Exception + value;
  type_error_text : BindFault -> string
}.

(** ** The process and its monad *)

(** logging's numeric levels *)
Definition INFO : Z := 20.
Definition WARNING : Z := 30.
Definition ERROR : Z := 40.

(** [stdout] holds one entry per print(json.dumps(doc)): the document doc
    whose text went out as that line.  [stderr] holds the formatted log
    lines of the script.  [requests] lists the calls of create, each by its
    keyword arguments, oldest first. *)
Record Process : Type := {
  level : Z;
  stdout : list value;
  stderr : list string;
  requests : list Request
}.

(** logging.basicConfig(level=logging.WARNING, ...) at import time *)
Definition boot : Process :=
  {| level := WARNING; stdout := []; stderr := []; requests := [] |}.

Inductive Outcome (A : Type) : Type :=
| Returns (a : A)
| Raises (b : BaseException).
Arguments Returns {A} a.
Arguments Raises {A} b.

Definition M (A : Type) : Type := Process -> Outcome A * Process.

Definition ret {A : Type} (a : A) : M A := fun p => (Returns a, p).

Definition raise {A : Type} (b : BaseException) : M A := fun p => (Raises b, p).

Definition bind {A B : Type} (m : M A) (k : A -> M B) : M B :=
  fun p =>
    match m p with
    | (Returns a, p') => k a p'
    | (Raises b, p') => (Raises b, p')
    end.

Declare Scope py_scope.
Delimit Scope py_scope with py.
Notation "x <- m ;; k" := (bind m (fun x => k))
  (at level 100, m at next level, right associativity) : py_scope.
Notation "m ;; k" := (bind m (fun _ => k))
  (at level 100, right associativity) : py_scope.
Open Scope py_scope.

(** try: body / except Exception as e: handler e *)
Definition try_except {A : Type} (body : M A) (handler : Exception -> M A) : M A :=
  fun p =>
    match body p with
    | (Raises (Exn e), p') => handler e p'
    | (Returns a, p') => (Returns a, p')
    | (Raises (SystemExit c), p') => (Raises (SystemExit c), p')
    end.

(** logging.getLogger().setLevel(lvl) *)
Definition setLevel (lvl : Z) : M unit :=
  fun p => (Returns tt,
            {| level := lvl; stdout := stdout p; stderr := stderr p; requests := requests p |}).

(** logger.error(msg): the module logger has no level of its own, so the root
    level decides; the root handler writes levelname: message to stderr. *)
Definition logger_error (msg : string) : M unit :=
  fun p => (Returns tt,
            if level p <=? ERROR
            then {| level := level p; stdout := stdout p;
                    stderr := stderr p ++ ["ERROR: " ++ msg]; requests := requests p |}
            else p).

(** print(json.dumps(doc)) *)
Definition print_json (doc : value) : M unit :=
  fun p => (Returns tt,
            {| level := level p; stdout := stdout p ++ [doc];
               stderr := stderr p; requests := requests p |}).

(** sys.exit(code) *)
Definition sys_exit {A : Type} (code : Z) : M A := raise (SystemExit code).

(** The status the interpreter ends the process with: the code of a
    SystemExit, 1 after an uncaught exception, 0 when the program runs off
    its end. *)
Definition exit_status {A : Type} (o : Outcome A) : Z :=
  match o with
  | Returns _ => 0
  | Raises (SystemExit c) => c
  | Raises (Exn _) => 1
  end.

(** self.client.chat.completions.create( ... ): the call is recorded, then
    the reply or the failure comes back.  What the client does on the wire
    to produce it is in [Client]. *)
Definition chat_completions_create (w : World) (client : OpenAI) (req : Request)
  : M ChatCompletion :=
  fun p =>
    let p' := {| level := level p; stdout := stdout p; stderr := stderr p;
                 requests := requests p ++ [req] |} in
    match completions_create w client (requests p) req with
    | inl e => (Raises (Exn e), p')
    | inr response => (Returns response, p')
    end.

(** xs[0] *)
Definition first {A : Type} (xs : list A) : M A :=
  match xs with
  | x :: _ => ret x
  | [] => raise (Exn (IndexError "list index out of range"))
  end.

(** json.loads(s) *)
Definition loads (w : World) (s : option string) : M value :=
  match json_loads w s with
  | inl e => raise (Exn e)
  | inr v => ret v
  end.

(** OpenAI(api_key=k) *)
Definition new_OpenAI (w : World) (k : option string) : M OpenAI :=
  match OpenAI_init w k with
  | Some e => raise (Exn e)
  | None => ret {| client_api_key := k |}
  end.

(** ** The prompt *)

Module Prompt.

(** The double quote, which the rule texts use around their examples. *)
Definition dq : string := String (ascii_of_nat 34) EmptyString.

Definition prompt_intro : string :=
  "You are a test validator for a spreadsheet analysis CLI. Your job is to determine if the actual output correctly answers the given question.

Question: ".

Definition prompt_expected : string :=
  "
Expected Answer: ".

Definition prompt_fields : string :=
  "

The CLI output may contain the answer in various fields:
- Answer: Direct answer field
- MachineAnswer: Machine-readable answer (numeric values, entity names)
- Reasoning: Explanation that may contain the answer
- SimpleAnswer: Alternative answer field
- HumanExplanation: Human-readable explanation

Actual CLI Output:
".

Definition prompt_rules_heading : string :=
  "

VALIDATION RULES:
".

Definition rule_numeric : string :=
  "1. Numeric Comparison:
   - Allow for small rounding differences (±0.01 for decimals)
   - Ignore formatting differences (commas, dollar signs, percent signs)
   - " ++ dq ++ "12977.52" ++ dq ++ " matches " ++ dq ++ "12,977.52" ++ dq ++ " or " ++ dq ++ "$12977.52" ++ dq ++ "
   - For percentages: " ++ dq ++ "48.69" ++ dq ++ " matches " ++ dq ++ "48.69%" ++ dq ++ " 
   
".

Definition rule_text : string :=
  "2. Text Comparison:
   - Case-insensitive matching
   - " ++ dq ++ "MSFT" ++ dq ++ " matches " ++ dq ++ "msft" ++ dq ++ " or " ++ dq ++ "Msft" ++ dq ++ "
   
".

Definition rule_priority : string :=
  "3. Answer Extraction Priority:
   - First check MachineAnswer field (most reliable for numeric/entity answers)
   - Then check Answer and SimpleAnswer fields
   - Finally search in Reasoning field for answer patterns
   - Look for patterns like " ++ dq ++ "The answer is X" ++ dq ++ ", " ++ dq ++ "total is X" ++ dq ++ ", " ++ dq ++ "average is X" ++ dq ++ "
   
".

Definition rule_special : string :=
  "4. Special Cases:
   - For " ++ dq ++ "Which X has highest/lowest Y" ++ dq ++ " questions: Accept either just the X value or the Y value
   - For percentage questions: Accept with or without % sign
   - For count questions: Look for " ++ dq ++ "X rows" ++ dq ++ ", " ++ dq ++ "X records" ++ dq ++ ", " ++ dq ++ "X unique values" ++ dq ++ "
   
".

Definition prompt_closing : string :=
  "IMPORTANT: Be flexible in extraction but strict in validation. The answer must be semantically correct.

Extract the actual answer from the output and determine if it matches the expected answer.".

Definition rule_set : string :=
  prompt_rules_heading ++ rule_numeric ++ rule_text ++ rule_priority
    ++ rule_special ++ prompt_closing.

(** The f-string of validate_test_result. *)
Definition build (question expected_answer actual_output : string) : string :=
  prompt_intro ++ question ++ prompt_expected ++ expected_answer
    ++ prompt_fields ++ actual_output ++ rule_set.

(** x occurs in s *)
Definition Substring (x s : string) : Prop :=
  exists before after, s = before ++ x ++ after.

Fixpoint starts_with (x s : string) : bool :=
  match x, s with
  | EmptyString, _ => true
  | String a x', String b s' => Ascii.eqb a b && starts_with x' s'
  | String _ _, EmptyString => false
  end.

Fixpoint occurs (x s : string) : bool :=
  starts_with x s ||
  match s with
  | EmptyString => false
  | String _ s' => occurs x s'
  end.

End Prompt.

(** ** The response format *)

Module Schema.

(** The value under the key schema in the response_format argument. *)
Definition result_schema : value :=
  PDict [
    ("type", PStr "object");
    ("properties", PDict [
      ("is_correct", PDict [
        ("type", PStr "boolean");
        ("description", PStr "Whether the actual output correctly answers the question")]);
      ("extracted_answer", PDict [
        ("type", PStr "string");
        ("description", PStr "The answer extracted from the actual output")]);
      ("explanation", PDict [
        ("type", PStr "string");
        ("description", PStr "Brief explanation of why the test passed or failed")]);
      ("confidence", PDict [
        ("type", PStr "number");
        ("description", PStr "Confidence level of the validation (0-1)");
        ("minimum", PInt 0);
        ("maximum", PInt 1)]);
      ("answer_location", PDict [
        ("type", PStr "string");
        ("description", PStr "Where the answer was found (e.g., 'MachineAnswer field', 'Reasoning field')")])]);
    ("required", PList [PStr "is_correct"; PStr "extracted_answer"; PStr "explanation";
                        PStr "confidence"; PStr "answer_location"]);
    ("additionalProperties", PBool false)].

(** The response_format argument, as the dict literal of the call. *)
Definition response_format : value :=
  PDict [
    ("type", PStr "json_schema");
    ("json_schema", PDict [
      ("name", PStr "test_validation");
      ("strict", PBool true);
      ("schema", result_schema)])].

(** v[k] when v is a dict that has k *)
Definition item (k : string) (v : value) : option value :=
  match v with
  | PDict d => lookup k d
  | _ => None
  end.

(** The schema a request asks the reply to follow:
    response_format["json_schema"]["schema"]. *)
Definition requested (fmt : value) : option value :=
  match item "json_schema" fmt with
  | Some js => item "schema" js
  | None => None
  end.

(** *** Conformance of a reply to a schema

    The part of JSON Schema the request uses: type, properties, required,
    additionalProperties, minimum and maximum.  This is the meaning of the
    contract the service is trusted to keep; the script itself never runs
    it. *)

(** An integer bound as a float; exact below 2^53 in magnitude. *)
Definition float_of_Z (z : Z) : float :=
  if z <? 0 then PrimFloat.opp (PrimFloat.of_uint63 (Uint63.of_Z (- z)))
  else PrimFloat.of_uint63 (Uint63.of_Z z).

(** a <= b on numbers; false when either is not a number (or is NaN). *)
Definition num_leb (a b : value) : bool :=
  match a, b with
  | PInt x, PInt y => x <=? y
  | PInt x, PFloat g => PrimFloat.leb (float_of_Z x) g
  | PFloat f, PInt y => PrimFloat.leb f (float_of_Z y)
  | PFloat f, PFloat g => PrimFloat.leb f g
  | _, _ => false
  end.

Definition is_number (v : value) : bool :=
  match v with
  | PInt _ | PFloat _ => true
  | _ => false
  end.

Definition has_type (t : string) (v : value) : bool :=
  if String.eqb t "boolean" then match v with PBool _ => true | _ => false end
  else if String.eqb t "string" then match v with PStr _ => true | _ => false end
  else if String.eqb t "number" then is_number v
  else if String.eqb t "object" then match v with PDict _ => true | _ => false end
  else if String.eqb t "array" then match v with PList _ => true | _ => false end
  else if String.eqb t "null" then match v with PNone => true | _ => false end
  else true.

(** The keywords that look at one level only. *)
Definition keyword_holds (kw : string) (arg : value) (siblings : list (string * value))
    (v : value) : bool :=
  if String.eqb kw "type" then
    match arg with PStr t => has_type t v | _ => true end
  else if String.eqb kw "minimum" then
    if is_number v then num_leb arg v else true
  else if String.eqb kw "maximum" then
    if is_number v then num_leb v arg else true
  else if String.eqb kw "required" then
    match arg, v with
    | PList names, PDict obj =>
        forallb (fun n => match n with PStr k => mem k (keys obj) | _ => true end) names
    | _, _ => true
    end
  else if String.eqb kw "additionalProperties" then
    match arg, v with
    | PBool false, PDict obj =>
        match lookup "properties" siblings with
        | Some (PDict props) => forallb (fun k => mem k (keys props)) (keys obj)
        | _ => match obj with [] => true | _ :: _ => false end
        end
    | _, _ => true
    end
  else true.

(** v conforms to schema *)
Fixpoint valid (schema : value) (v : value) {struct schema} : bool :=
  match schema with
  | PDict sch =>
      (fix each_keyword (kws : list (string * value)) : bool :=
         match kws with
         | [] => true
         | (kw, arg) :: rest =>
             keyword_holds kw arg sch v
             && (if String.eqb kw "properties" then
                   match arg, v with
                   | PDict props, PDict obj =>
                       (fix each_property (ps : list (string * value)) : bool :=
                          match ps with
                          | [] => true
                          | (name, sub) :: ps' =>
                              match lookup name obj with
                              | Some x => valid sub x
                              | None => true
                              end
                              && each_property ps'
                          end) props
                   | _, _ => true
                   end
                 else true)
             && each_keyword rest
         end) sch
  | _ => true
  end.

End Schema.

(** ** The script *)

(** The dataclass.  Its annotations (bool, str, str, float, str) are not
    enforced by Python: a field holds whatever value it was given. *)
Record TestValidationResult : Type := {
  is_correct : value;
  extracted_answer : value;
  explanation : value;
  confidence : value;
  answer_location : value
}.

(** The parameters of the generated __init__, in declaration order. *)
Definition fields : list string :=
  ["is_correct"; "extracted_answer"; "explanation"; "confidence"; "answer_location"].

(** TestValidationResult( **result_data ): every key must name a parameter and
    every parameter must receive a value.  An unknown key is reported before
    a missing parameter. *)
Definition new_TestValidationResult (w : World) (result_data : value)
  : M TestValidationResult :=
  match result_data with
  | PDict kw =>
      match find (fun k => negb (mem k fields)) (keys kw) with
      | Some k => raise (Exn (TypeError (type_error_text w (UnexpectedKeyword k))))
      | None =>
          match lookup "is_correct" kw, lookup "extracted_answer" kw,
                lookup "explanation" kw, lookup "confidence" kw,
                lookup "answer_location" kw with
          | Some a, Some b, Some c, Some d, Some e =>
              ret {| is_correct := a; extracted_answer := b; explanation := c;
                     confidence := d; answer_location := e |}
          | _, _, _, _, _ =>
              raise (Exn (TypeError (type_error_text w
                (MissingArguments (filter (fun f => negb (mem f (keys kw))) fields)))))
          end
      end
  | _ => raise (Exn (TypeError (type_error_text w (NotAMapping result_data))))
  end.

(** dataclasses.asdict(result): the fields in declaration order. *)
Definition asdict (r : TestValidationResult) : value :=
  PDict [("is_correct", is_correct r);
         ("extracted_answer", extracted_answer r);
         ("explanation", explanation r);
         ("confidence", confidence r);
         ("answer_location", answer_location r)].

Record TestValidator : Type := {
  api_key : option string;
  client : OpenAI
}.

(** TestValidator.__init__ *)
Definition TestValidator_init (w : World) (api_key : option string) : M TestValidator :=
  let self_api_key := or_else api_key (environ_get w "OPENAI_API_KEY") in
  if negb (truthy (of_optional self_api_key)) then
    raise (Exn (ValueError
      "OpenAI API key not found. Set OPENAI_API_KEY environment variable."))
  else
    self_client <- new_OpenAI w self_api_key ;;
    ret {| api_key := self_api_key; client := self_client |}.

(** The keyword arguments of the one create call. *)
#[warnings="-inexact-float"] Definition request (prompt : string) : Request :=
  {| model := "gpt-4o-mini";
     messages := [PDict [("role", PStr "user"); ("content", PStr prompt)]];
     response_format := Schema.response_format;
     temperature := 0.1%float |}.

(** The try block of validate_test_result: the call, then the parse. *)
Definition attempt (w : World) (self : TestValidator) (prompt : string)
  : M TestValidationResult :=
  response <- chat_completions_create w (client self) (request prompt) ;;
  choice <- first (choices response) ;;
  result_data <- loads w (content (message choice)) ;;
  new_TestValidationResult w result_data.

(** The result the except clause builds from the exception it caught. *)
Definition failed (e : Exception) : TestValidationResult :=
  {| is_correct := PBool false;
     extracted_answer := PStr "Error";
     explanation := PStr ("Validation failed due to error: " ++ str e);
     confidence := PFloat 0.0;
     answer_location := PStr "N/A" |}.

(** TestValidator.validate_test_result *)
Definition validate_test_result (w : World) (self : TestValidator)
    (question expected_answer actual_output : string) : M TestValidationResult :=
  let prompt := Prompt.build question expected_answer actual_output in
  try_except
    (attempt w self prompt)
    (fun e =>
       logger_error ("Error during validation: " ++ str e) ;;
       ret (failed e)).

(** What parser.parse_args() returned. *)
Record Namespace : Type := {
  question : string;
  expected_answer : string;
  actual_output : string;
  arg_api_key : option string;
  verbose : bool
}.

(** The dict main prints from its own except clause. *)
Definition error_result (e : Exception) : value :=
  PDict [("is_correct", PBool false);
         ("extracted_answer", PStr "Error");
         ("explanation", PStr (str e));
         ("confidence", PFloat 0.0);
         ("answer_location", PStr "N/A")].

(** if args.verbose: logging.getLogger().setLevel(logging.INFO) *)
Definition configure (args : Namespace) : M unit :=
  if verbose args then setLevel INFO else ret tt.

(** main, from the point where the arguments have been parsed.  sys.exit
    sits inside the try block; what it raises is no Exception, so the except
    clause does not see it. *)
Definition main (w : World) (args : Namespace) : M unit :=
  configure args ;;
  try_except
    (validator <- TestValidator_init w (arg_api_key args) ;;
     result <- validate_test_result w validator
                 (question args) (expected_answer args) (actual_output args) ;;
     print_json (asdict result) ;;
     sys_exit (if truthy (is_correct result) then 0 else 1))
    (fun e =>
       logger_error ("Fatal error: " ++ str e) ;;
       print_json (error_result e) ;;
       sys_exit 1).

(** The requests a computation sends when started in p. *)
Definition sent_during {A : Type} (m : M A) (p : Process) : list Request :=
  skipn (length (requests p)) (requests (snd (m p))).

(** p after one more request went out *)
Definition after_request (req : Request) (p : Process) : Process :=
  {| level := level p; stdout := stdout p; stderr := stderr p;
     requests := requests p ++ [req] |}.

(** One run of the script, from a fresh process: the exit status and what
    the run left on stdout. *)
Definition run (w : World) (args : Namespace) : Z * list value :=
  let (o, p) := main w args boot in (exit_status o, stdout p).

(** ** The module run as a program *)

(** print(line, file=sys.stderr) *)
Definition print_stderr (line : string) : M unit :=
  fun p => (Returns tt,
            {| level := level p; stdout := stdout p;
               stderr := stderr p ++ [line]; requests := requests p |}).

(** logging.basicConfig(level=lvl, format='%(levelname)s: %(message)s'), in
    a process whose root logger has no handler yet. *)
Definition basicConfig (lvl : Z) : M unit := setLevel lvl.

(** The statements of the module in the order they run: the guarded import
    of the client library, the configuration of logging, and main under
    if __name__ == '__main__'.  [importable] tells whether
    from openai import OpenAI succeeds; [args] is what parse_args returns
    once main has been entered. *)
Definition script (importable : bool) (w : World) (args : Namespace) : M unit :=
  if importable then
    basicConfig WARNING ;;
    main w args
  else
    print_stderr "Error: OpenAI library not installed. Install with: pip install openai" ;;
    sys_exit 1.

(** ** Reading a result *)

(** A number between 0 and 1, bounds included. *)
Definition in_unit_interval (v : value) : bool :=
  match v with
  | PInt z => (0 <=? z) && (z <=? 1)
  | PFloat f => PrimFloat.leb 0 f && PrimFloat.leb f 1
  | _ => false
  end.

Definition is_bool (v : value) : bool :=
  match v with PBool _ => true | _ => false end.

Definition is_str (v : value) : bool :=
  match v with PStr _ => true | _ => false end.

(** The five values have the types the dataclass announces. *)
Definition well_typed (r : TestValidationResult) : bool :=
  is_bool (is_correct r) && is_str (extracted_answer r) && is_str (explanation r)
  && in_unit_interval (confidence r) && is_str (answer_location r).

(** The result the printed document stands for, when it has the five keys
    in the order of the fields. *)
Definition of_document (doc : value) : option TestValidationResult :=
  match doc with
  | PDict [(k1, a); (k2, b); (k3, c); (k4, d); (k5, e)] =>
      if list_eq_dec string_dec [k1; k2; k3; k4; k5] fields
      then Some {| is_correct := a; extracted_answer := b; explanation := c;
                   confidence := d; answer_location := e |}
      else None
  | _ => None
  end.

(** The shape both except clauses give their result: everything fixed but
    the explanation, which carries the text of the error. *)
Definition error_shaped (e : Exception) (r : TestValidationResult) : Prop :=
  is_correct r = PBool false
  /\ extracted_answer r = PStr "Error"
  /\ (exists text, explanation r = PStr text /\ Prompt.Substring (str e) text)
  /\ confidence r = PFloat 0.0
  /\ answer_location r = PStr "N/A".

(** The contract the script trusts the service to keep: whenever a request
    with the response format of the script is answered and the content of
    the answer parses, the parsed value conforms to the schema the request
    carried. *)
Definition keeps_schema (w : World) : Prop :=
  forall client history req response choice rest v schema,
    response_format req = Schema.response_format ->
    Schema.requested (response_format req) = Some schema ->
    completions_create w client history req = inr response ->
    choices response = choice :: rest ->
    json_loads w (content (message choice)) = inr v ->
    Schema.valid schema v = true.

(** ** The client on the wire *)

(** The client library is not part of the repository.  This is the retry
    policy its documentation gives: a request that ends in a connection
    error, a timeout or one of the statuses 408, 409, 429 and 5xx is sent
    again, at most max_retries times, 2 unless the client is built with
    another number; the script builds it with none. *)
Module Client.

(** What becomes of one HTTP POST: an answer, or a failure that the client
    either retries (connection error, timeout, status 408, 409, 429, 5xx) or
    raises at once. *)
Inductive Posted : Type :=
| Answered (response : ChatCompletion)
| Failed (retry : bool) (e : Exception).

(** What the n-th POST of a call comes to, n counting from 0. *)
Definition Wire : Type := nat -> Request -> Posted.

(** The retries of a client built without max_retries, as by
    OpenAI(api_key=...). *)
Definition DEFAULT_MAX_RETRIES : nat := 2.

(** One call of create: POST, and POST again while the failure is one to
    retry and retries are left.  The result of the call and the number of
    POSTs it took. *)
Fixpoint send (wire : Wire) (retries_left nth : nat) (req : Request)
  : (Exception + ChatCompletion) * nat :=
  match wire nth req with
  | Answered response => (inr response, 1%nat)
  | Failed retry e =>
      match retry, retries_left with
      | true, S k => let (o, n) := send wire k (S nth) req in (o, S n)
      | _, _ => (inl e, 1%nat)
      end
  end.

Definition create (wire : Wire) (max_retries : nat) (req : Request)
  : Exception + ChatCompletion :=
  fst (send wire max_retries 0 req).

Definition posts (wire : Wire) (max_retries : nat) (req : Request) : nat :=
  snd (send wire max_retries 0 req).

End Client.

(** The world w with its create call carried out by the client over a
    wire. *)
Definition over (w : World) (wire : Client.Wire) (max_retries : nat) : World :=
  {| environ_get := environ_get w;
     OpenAI_init := OpenAI_init w;
     completions_create := fun _ _ req => Client.create wire max_retries req;
     json_loads := json_loads w;
     type_error_text := type_error_text w |}.

(** The HTTP requests a computation causes when started in p: the POSTs of
    each of its calls of create. *)
Definition posts_during {A : Type} (wire : Client.Wire) (max_retries : nat)
    (m : M A) (p : Process) : nat :=
  list_sum (map (Client.posts wire max_retries) (sent_during m p)).

(** ** The text json.dumps writes *)

(** json.dumps tests a float by o != o, o == inf and o == -inf, and writes
    NaN, Infinity or -Infinity when one holds. *)
Definition finite (f : float) : bool :=
  PrimFloat.eqb f f
  && negb (PrimFloat.eqb f infinity)
  && negb (PrimFloat.eqb f neg_infinity).

(** With its defaults json.dumps writes every value json.loads can build;
    the text is JSON unless a float in it is not finite, for JSON has no
    token for those. *)
Fixpoint dumps_is_json (v : value) : bool :=
  match v with
  | PFloat f => finite f
  | PList l => forallb dumps_is_json l
  | PDict d => forallb (fun kv : string * value => let (_, x) := kv in dumps_is_json x) d
  | PNone | PBool _ | PInt _ | PStr _ => true
  end.

(** ** The claims the script does not meet as they are written *)


(** The status is 0 or 1, and 0 exactly when the printed is_correct is
    true. *)
Definition exit_tells_is_correct (w : World) (args : Namespace) (p : Process) : Prop :=
  (exit_status (fst (main w args p)) = 0 \/ exit_status (fst (main w args p)) = 1)
  /\ exists doc r,
       stdout (snd (main w args p)) = (stdout p ++ [doc])%list
       /\ of_document doc = Some r
       /\ (exit_status (fst (main w args p)) = 0 <-> is_correct r = PBool true).

(** One call of validate_test_result puts exactly one request on the
    wire. *)
Definition one_request_on_the_wire (w : World) (wire : Client.Wire) (max_retries : nat)
    (self : TestValidator) (q e a : string) (p : Process) : Prop :=
  posts_during wire max_retries
    (validate_test_result (over w wire max_retries) self q e a) p = 1%nat.

(** ** Sample worlds *)

Module Sample.

Import Prompt.

Definition quoted (s : string) : string := dq ++ s ++ dq.

(** A stand-in for json.loads that knows the texts of the samples below and
    rejects every other text. *)
Definition loads_from (table : list (string * value)) (s : option string)
  : Exception + value :=
  match s with
  | None => inl (TypeError "the JSON object must be str, bytes or bytearray, not NoneType")
  | Some text =>
      match lookup text table with
      | Some v => inr v
      | None => inl (LibraryError "JSONDecodeError" "Expecting value: line 1 column 1 (char 0)")
      end
  end.

(** One wording of the interpreter's binding errors. *)
Definition wording (f : BindFault) : string :=
  match f with
  | NotAMapping _ => "TestValidationResult() argument after ** must be a mapping"
  | UnexpectedKeyword k =>
      "TestValidationResult.__init__() got an unexpected keyword argument '" ++ k ++ "'"
  | MissingArguments names =>
      "TestValidationResult.__init__() missing required positional arguments: "
        ++ String.concat ", " names
  end.

(** A reply the schema allows. *)
Definition agreeing_text : string :=
  "{" ++ quoted "is_correct" ++ ": true, "
      ++ quoted "extracted_answer" ++ ": " ++ quoted "12977.52" ++ ", "
      ++ quoted "explanation" ++ ": " ++ quoted "MachineAnswer matches once formatting is ignored" ++ ", "
      ++ quoted "confidence" ++ ": 0.5, "
      ++ quoted "answer_location" ++ ": " ++ quoted "MachineAnswer field" ++ "}".

Definition agreeing_items : list (string * value) :=
  [("is_correct", PBool true);
   ("extracted_answer", PStr "12977.52");
   ("explanation", PStr "MachineAnswer matches once formatting is ignored");
   ("confidence", PFloat 0.5);
   ("answer_location", PStr "MachineAnswer field")].

Definition agreeing : value := PDict agreeing_items.

(** A reply with the five names but other types: is_correct is the string
    false and confidence is 7. *)
Definition loose_text : string :=
  "{" ++ quoted "is_correct" ++ ": " ++ quoted "false" ++ ", "
      ++ quoted "extracted_answer" ++ ": " ++ quoted "12977.52" ++ ", "
      ++ quoted "explanation" ++ ": " ++ quoted "no match" ++ ", "
      ++ quoted "confidence" ++ ": 7, "
      ++ quoted "answer_location" ++ ": " ++ quoted "Answer field" ++ "}".

Definition loose_items : list (string * value) :=
  [("is_correct", PStr "false");
   ("extracted_answer", PStr "12977.52");
   ("explanation", PStr "no match");
   ("confidence", PInt 7);
   ("answer_location", PStr "Answer field")].

Definition loose : value := PDict loose_items.

(** A reply that lacks answer_location. *)
Definition short_text : string :=
  "{" ++ quoted "is_correct" ++ ": true, "
      ++ quoted "extracted_answer" ++ ": " ++ quoted "MSFT" ++ ", "
      ++ quoted "explanation" ++ ": " ++ quoted "same ticker" ++ ", "
      ++ quoted "confidence" ++ ": 1}".

Definition short_items : list (string * value) :=
  [("is_correct", PBool true);
   ("extracted_answer", PStr "MSFT");
   ("explanation", PStr "same ticker");
   ("confidence", PInt 1)].

Definition short : value := PDict short_items.

Definition json_table : list (string * value) :=
  [(agreeing_text, agreeing); (loose_text, loose); (short_text, short)].

Definition replying (text : string) : ChatCompletion :=
  {| choices := [ {| message := {| content := Some text |} |} ] |}.

(** A world with the key in the environment and a service that gives the
    same answer to every request. *)
Definition world (key : option string) (answer : Exception + ChatCompletion) : World :=
  {| environ_get := fun name => if String.eqb name "OPENAI_API_KEY" then key else None;
     OpenAI_init := fun _ => None;
     completions_create := fun _ _ _ => answer;
     json_loads := loads_from json_table;
     type_error_text := wording |}.

Definition connection_error : Exception :=
  LibraryError "APIConnectionError" "Connection error.".

Definition offline : World := world (Some "sk-test") (inl connection_error).
Definition agrees : World := world (Some "sk-test") (inr (replying agreeing_text)).
Definition sloppy : World := world (Some "sk-test") (inr (replying loose_text)).
Definition truncated : World := world (Some "sk-test") (inr (replying short_text)).
Definition garbled : World := world (Some "sk-test") (inr (replying "I think the answer is right.")).
Definition no_key : World := world None (inr (replying agreeing_text)).

Definition args : Namespace :=
  {| question := "What is the total revenue?";
     expected_answer := "12977.52";
     actual_output := "MachineAnswer: $12,977.52";
     arg_api_key := None;
     verbose := false |}.

Definition validator : TestValidator :=
  {| api_key := Some "sk-test"; client := {| client_api_key := Some "sk-test" |} |}.

(** A wire on which every POST ends in a connection error. *)
Definition dead_wire : Client.Wire :=
  fun _ _ => Client.Failed true connection_error.

(** A wire that loses the first POST and answers the second. *)
Definition flaky_wire : Client.Wire :=
  fun n _ => match n with
             | O => Client.Failed true connection_error
             | S _ => Client.Answered (replying agreeing_text)
             end.

(** A wire on which the service refuses the key: status 401, not retried. *)
Definition closed_wire : Client.Wire :=
  fun _ _ => Client.Failed false
               (LibraryError "AuthenticationError" "Error code: 401").

(** A reply with the five names whose confidence is the token NaN, which
    json.loads reads as a float. *)
Definition nan_text : string :=
  "{" ++ quoted "is_correct" ++ ": true, "
      ++ quoted "extracted_answer" ++ ": " ++ quoted "12977.52" ++ ", "
      ++ quoted "explanation" ++ ": " ++ quoted "matches" ++ ", "
      ++ quoted "confidence" ++ ": NaN, "
      ++ quoted "answer_location" ++ ": " ++ quoted "Answer field" ++ "}".

Definition nan_items : list (string * value) :=
  [("is_correct", PBool true);
   ("extracted_answer", PStr "12977.52");
   ("explanation", PStr "matches");
   ("confidence", PFloat nan);
   ("answer_location", PStr "Answer field")].

Definition unsure : World :=
  {| environ_get := fun name => if String.eqb name "OPENAI_API_KEY"
                                then Some "sk-test" else None;
     OpenAI_init := fun _ => None;
     completions_create := fun _ _ _ => inr (replying nan_text);
     json_loads := loads_from [(nan_text, PDict nan_items)];
     type_error_text := wording |}.

End Sample.

(** * Properties *)

(** ** How the pieces run *)

(** A computation that ends here, not through SystemExit, in the state it
    started in. *)
Ltac ends_here := eexists; split; [reflexivity | discriminate].

Section Running.

Variable w : World.

Lemma new_TestValidationResult_pure (v : value) :
  exists o, (forall p, new_TestValidationResult w v p = (o, p))
            /\ forall c, o <> Raises (SystemExit c).
Proof.
  unfold new_TestValidationResult.
  destruct v as [| b | z | f | s | l | kw]; try ends_here.
  destruct (find _ (keys kw)); [ends_here |].
  destruct (lookup "is_correct" kw), (lookup "extracted_answer" kw),
    (lookup "explanation" kw), (lookup "confidence" kw),
    (lookup "answer_location" kw); ends_here.
Qed.

(** The try block sends its request whatever happens next, touches nothing
    else, and never leaves through SystemExit. *)
Lemma attempt_frame (self : TestValidator) (prompt : string) (p : Process) :
  exists o, attempt w self prompt p = (o, after_request (request prompt) p)
            /\ forall c, o <> Raises (SystemExit c).
Proof.
  unfold attempt, bind, chat_completions_create.
  fold (after_request (request prompt) p).
  destruct (completions_create w (client self) (requests p) (request prompt))
    as [e | response]; [ends_here |].
  destruct (choices response) as [| choice rest]; cbn; [ends_here |].
  unfold loads. destruct (json_loads w (content (message choice))) as [e | v]; cbn.
  - ends_here.
  - destruct (new_TestValidationResult_pure v) as [o [Ho Hexit]].
    exists o. split; [apply Ho | exact Hexit].
Qed.

(** The try block, one case at a time. *)
Lemma attempt_unfold (self : TestValidator) (prompt : string) (p : Process) :
  attempt w self prompt p =
  match completions_create w (client self) (requests p) (request prompt) with
  | inl e => (Raises (Exn e), after_request (request prompt) p)
  | inr response =>
      match choices response with
      | [] => (Raises (Exn (IndexError "list index out of range")),
               after_request (request prompt) p)
      | choice :: _ =>
          match json_loads w (content (message choice)) with
          | inl e => (Raises (Exn e), after_request (request prompt) p)
          | inr v => new_TestValidationResult w v (after_request (request prompt) p)
          end
      end
  end.
Proof.
  unfold attempt, bind, chat_completions_create.
  fold (after_request (request prompt) p).
  destruct (completions_create w (client self) (requests p) (request prompt))
    as [e | response]; [reflexivity |].
  destruct (choices response) as [| choice rest]; cbn; [reflexivity |].
  unfold loads.
  destruct (json_loads w (content (message choice))); reflexivity.
Qed.

(** validate_test_result in terms of its try block. *)
Lemma validate_test_result_unfold (self : TestValidator) (q e a : string) (p : Process) :
  validate_test_result w self q e a p =
  match attempt w self (Prompt.build q e a) p with
  | (Returns r, p') => (Returns r, p')
  | (Raises (Exn exn), p') =>
      (Returns (failed exn),
       snd (logger_error ("Error during validation: " ++ str exn) p'))
  | (Raises (SystemExit c), p') => (Raises (SystemExit c), p')
  end.
Proof.
  unfold validate_test_result, try_except.
  destruct (attempt w self (Prompt.build q e a) p) as [[r | [exn | c]] p'];
    reflexivity.
Qed.

Lemma logger_error_frame (msg : string) (p : Process) :
  let p' := snd (logger_error msg p) in
  level p' = level p /\ stdout p' = stdout p /\ requests p' = requests p.
Proof.
  unfold logger_error; cbn. destruct (level p <=? ERROR); cbn; auto.
Qed.

(** validate_test_result always returns; it leaves the level and stdout
    alone and adds exactly its one request. *)
Lemma validate_test_result_frame (self : TestValidator) (q e a : string) (p : Process) :
  exists r p',
    validate_test_result w self q e a p = (Returns r, p')
    /\ level p' = level p
    /\ stdout p' = stdout p
    /\ requests p' = (requests p ++ [request (Prompt.build q e a)])%list.
Proof.
  rewrite validate_test_result_unfold.
  destruct (attempt_frame self (Prompt.build q e a) p) as [o [-> Hexit]].
  destruct o as [r | [exn | c]].
  - exists r; eexists; repeat split; reflexivity.
  - exists (failed exn); eexists; split; [reflexivity |].
    destruct (logger_error_frame ("Error during validation: " ++ str exn)
                (after_request (request (Prompt.build q e a)) p)) as [Hl [Ho Hr]].
    rewrite Hl, Ho, Hr. repeat split; reflexivity.
  - exfalso; exact (Hexit c eq_refl).
Qed.

(** Construction changes no state and depends on none. *)
Lemma TestValidator_init_pure (key : option string) :
  exists o, (forall p0, TestValidator_init w key p0 = (o, p0))
            /\ forall c, o <> Raises (SystemExit c).
Proof.
  unfold TestValidator_init.
  destruct (negb (truthy (of_optional (or_else key (environ_get w "OPENAI_API_KEY")))));
    [ends_here |].
  unfold bind, new_OpenAI.
  destruct (OpenAI_init w (or_else key (environ_get w "OPENAI_API_KEY"))); ends_here.
Qed.

Lemma configure_frame (args : Namespace) (p : Process) :
  exists p0, configure args p = (Returns tt, p0)
             /\ stdout p0 = stdout p /\ stderr p0 = stderr p
             /\ requests p0 = requests p
             /\ level p0 = (if verbose args then INFO else level p).
Proof.
  unfold configure. destruct (verbose args); eexists; repeat split; reflexivity.
Qed.

(** The two ways main ends: construction raised and main reports it itself,
    or the validator ran and main prints its result. *)
Lemma main_cases (args : Namespace) (p : Process) :
  let p0 := snd (configure args p) in
  (exists exn,
      TestValidator_init w (arg_api_key args) p0 = (Raises (Exn exn), p0)
      /\ fst (main w args p) = Raises (SystemExit 1)
      /\ stdout (snd (main w args p)) = (stdout p ++ [error_result exn])%list
      /\ requests (snd (main w args p)) = requests p
      /\ level (snd (main w args p)) = (if verbose args then INFO else level p))
  \/
  (exists self r p1,
      TestValidator_init w (arg_api_key args) p0 = (Returns self, p0)
      /\ validate_test_result w self (question args) (expected_answer args)
           (actual_output args) p0 = (Returns r, p1)
      /\ fst (main w args p)
         = Raises (SystemExit (if truthy (is_correct r) then 0 else 1))
      /\ stdout (snd (main w args p)) = (stdout p ++ [asdict r])%list
      /\ requests (snd (main w args p))
         = (requests p ++ [request (Prompt.build (question args) (expected_answer args)
                                      (actual_output args))])%list
      /\ level (snd (main w args p)) = (if verbose args then INFO else level p)).
Proof.
  destruct (configure_frame args p) as [p0 [Hc [Hout [_ [Hreq Hlev]]]]].
  destruct (TestValidator_init_pure (arg_api_key args)) as [o [Hinit Hexit]].
  unfold main, try_except, bind.
  rewrite Hc. cbn [snd]. rewrite (Hinit p0).
  destruct o as [self | [exn | c]].
  - right.
    destruct (validate_test_result_frame self (question args) (expected_answer args)
                (actual_output args) p0) as [r [p1 [Hv [Hl [Ho Hr]]]]].
    rewrite Hv. exists self, r, p1.
    split; [reflexivity |]. split; [exact Hv |]. cbn.
    rewrite Ho, Hr, Hl, Hout, Hreq, Hlev. repeat split; reflexivity.
  - left. exists exn. split; [reflexivity |].
    destruct (logger_error_frame ("Fatal error: " ++ str exn) p0) as [Hl [Ho Hr]].
    cbn in Hl, Ho, Hr |- *. rewrite Ho, Hr, Hl, Hout, Hreq, Hlev.
    repeat split; reflexivity.
  - exfalso; exact (Hexit c eq_refl).
Qed.

End Running.

(** ** Lists, dicts and texts *)

Lemma mem_In (k : string) (ks : list string) : mem k ks = true <-> In k ks.
Proof.
  unfold mem. rewrite existsb_exists. split.
  - intros [x [Hin Heq]]. apply String.eqb_eq in Heq. now subst.
  - intros Hin. exists k. split; [assumption | apply String.eqb_refl].
Qed.

Lemma lookup_keys (k : string) (d : list (string * value)) :
  In k (keys d) <-> exists v, lookup k d = Some v.
Proof.
  induction d as [| [k' v'] d IH]; cbn.
  - split; [contradiction | intros [v Hv]; discriminate].
  - destruct (String.eqb_spec k k') as [-> | Hne].
    + split; [intros _; now exists v' | now left].
    + rewrite <- IH. split; [intros [Heq | Hin] | intros Hin].
      * now subst.
      * assumption.
      * now right.
Qed.

Lemma find_stranger_none (ks : list string) :
  find (fun k => negb (mem k fields)) ks = None <-> forall k, In k ks -> In k fields.
Proof.
  induction ks as [| k ks IH]; cbn [find].
  - split; [intros _ k [] | reflexivity].
  - destruct (mem k fields) eqn:Hk; cbn [negb].
    + rewrite IH. apply mem_In in Hk. split.
      * intros H x [<- | Hx]; [assumption | now apply H].
      * intros H x Hx. apply H. now right.
    + split; [discriminate |].
      intros H. assert (Hin : In k fields) by (apply H; now left).
      apply mem_In in Hin. congruence.
Qed.

Lemma sent_during_one {A : Type} (m : M A) (p : Process) (req : Request) :
  requests (snd (m p)) = (requests p ++ [req])%list -> sent_during m p = [req].
Proof.
  unfold sent_during. intros ->.
  induction (requests p) as [| x xs IH]; [reflexivity | exact IH].
Qed.

Lemma Substring_middle (before x after : string) :
  Prompt.Substring x (before ++ x ++ after).
Proof. now exists before, after. Qed.

Lemma append_assoc (a b c : string) : (a ++ b) ++ c = a ++ b ++ c.
Proof. induction a as [| ch a IH]; cbn; [reflexivity | now rewrite IH]. Qed.

Lemma append_empty (a : string) : a ++ EmptyString = a.
Proof. induction a as [| ch a IH]; cbn; [reflexivity | now rewrite IH]. Qed.

Lemma Substring_end (before x : string) : Prompt.Substring x (before ++ x).
Proof. exists before, EmptyString. now rewrite append_empty. Qed.

Lemma starts_with_sound (x s : string) :
  Prompt.starts_with x s = true -> exists after, s = x ++ after.
Proof.
  revert s. induction x as [| c x IH]; intros s H.
  - now exists s.
  - destruct s as [| d s]; [discriminate |]. cbn in H.
    apply andb_true_iff in H as [Hc Hx]. apply Ascii.eqb_eq in Hc as ->.
    destruct (IH s Hx) as [after ->]. now exists after.
Qed.

Lemma occurs_sound (x s : string) :
  Prompt.occurs x s = true -> Prompt.Substring x s.
Proof.
  induction s as [| c s IH]; cbn; intros H.
  - apply orb_true_iff in H as [H | H]; [| discriminate].
    destruct (starts_with_sound _ _ H) as [after ->]. now exists EmptyString, after.
  - apply orb_true_iff in H as [H | H].
    + destruct (starts_with_sound _ _ H) as [after ->]. now exists EmptyString, after.
    + destruct (IH H) as [b [a ->]]. now exists (String c b), a.
Qed.

Lemma failed_error_shaped (e : Exception) : error_shaped e (failed e).
Proof.
  repeat split. eexists; split; [reflexivity | apply Substring_end].
Qed.

(** ** Sample runs *)

Example agrees_run : run Sample.agrees Sample.args = (0, [Sample.agreeing]).
Proof. reflexivity. Qed.

Example offline_run :
  run Sample.offline Sample.args = (1, [asdict (failed Sample.connection_error)]).
Proof. reflexivity. Qed.

Example garbled_run :
  run Sample.garbled Sample.args
  = (1, [asdict (failed (LibraryError "JSONDecodeError"
                           "Expecting value: line 1 column 1 (char 0)"))]).
Proof. reflexivity. Qed.

Example truncated_run :
  run Sample.truncated Sample.args
  = (1, [asdict (failed (TypeError
           (Sample.wording (MissingArguments ["answer_location"]))))]).
Proof. reflexivity. Qed.

Example no_key_run :
  run Sample.no_key Sample.args
  = (1, [error_result (ValueError
           "OpenAI API key not found. Set OPENAI_API_KEY environment variable.")]).
Proof. reflexivity. Qed.

(** Both except clauses log at level ERROR, which the root logger lets
    through with or without the verbose flag. *)
Example no_key_stderr :
  stderr (snd (main Sample.no_key Sample.args boot))
  = ["ERROR: Fatal error: OpenAI API key not found. Set OPENAI_API_KEY environment variable."].
Proof. reflexivity. Qed.

Example conformance_of_samples :
  Schema.valid Schema.result_schema Sample.agreeing = true
  /\ Schema.valid Schema.result_schema Sample.loose = false
  /\ Schema.valid Schema.result_schema Sample.short = false.
Proof. repeat split. Qed.

(** ** The claims *)

(** C1. Whatever exception the call to the service or the parsing of its
    reply raises, validate_test_result does not let it out: it returns a
    result with is_correct false, extracted_answer Error, an explanation
    that contains the text of the error, confidence 0.0 and answer_location
    N/A. *)
Theorem validate_test_result_catches :
  forall (w : World) (self : TestValidator) (q e a : string) (p p1 : Process)
         (exn : Exception),
    attempt w self (Prompt.build q e a) p = (Raises (Exn exn), p1) ->
    exists r p',
      validate_test_result w self q e a p = (Returns r, p')
      /\ r = failed exn
      /\ error_shaped exn r.
Proof.
  intros w self q e a p p1 exn H.
  rewrite validate_test_result_unfold, H.
  eexists; eexists; split; [reflexivity |].
  split; [reflexivity | apply failed_error_shaped].
Qed.

Lemma validate_test_result_catches_offline :
  attempt Sample.offline Sample.validator
    (Prompt.build "What is the total revenue?" "12977.52" "MachineAnswer: $12,977.52") boot
  = (Raises (Exn Sample.connection_error),
     after_request
       (request (Prompt.build "What is the total revenue?" "12977.52"
                   "MachineAnswer: $12,977.52")) boot)
  /\ exists r p',
       validate_test_result Sample.offline Sample.validator
         "What is the total revenue?" "12977.52" "MachineAnswer: $12,977.52" boot
       = (Returns r, p')
       /\ r = failed Sample.connection_error
       /\ error_shaped Sample.connection_error r.
Proof.
  split; [reflexivity |].
  exact (validate_test_result_catches Sample.offline Sample.validator _ _ _ boot _
           Sample.connection_error eq_refl).
Defined.

(** The causes the try block has for raising: the call itself, a reply
    without a choice, json.loads, and the constructor of the dataclass. *)
Lemma attempt_raises_when_call_fails (w : World) (self : TestValidator)
    (prompt : string) (p : Process) (exn : Exception) :
  completions_create w (client self) (requests p) (request prompt) = inl exn ->
  attempt w self prompt p = (Raises (Exn exn), after_request (request prompt) p).
Proof. intros H. now rewrite attempt_unfold, H. Qed.

Lemma attempt_raises_when_loads_fails (w : World) (self : TestValidator)
    (prompt : string) (p : Process) (response : ChatCompletion) (choice : Choice)
    (rest : list Choice) (exn : Exception) :
  completions_create w (client self) (requests p) (request prompt) = inr response ->
  choices response = choice :: rest ->
  json_loads w (content (message choice)) = inl exn ->
  attempt w self prompt p = (Raises (Exn exn), after_request (request prompt) p).
Proof. intros H1 H2 H3. now rewrite attempt_unfold, H1, H2, H3. Qed.

Lemma attempt_raises_when_no_choice (w : World) (self : TestValidator)
    (prompt : string) (p : Process) (response : ChatCompletion) :
  completions_create w (client self) (requests p) (request prompt) = inr response ->
  choices response = [] ->
  attempt w self prompt p
  = (Raises (Exn (IndexError "list index out of range")),
     after_request (request prompt) p).
Proof. intros H1 H2. now rewrite attempt_unfold, H1, H2. Qed.

Lemma attempt_raises_when_constructor_fails (w : World) (self : TestValidator)
    (prompt : string) (p : Process) (response : ChatCompletion) (choice : Choice)
    (rest : list Choice) (v : value) (exn : Exception) :
  completions_create w (client self) (requests p) (request prompt) = inr response ->
  choices response = choice :: rest ->
  json_loads w (content (message choice)) = inr v ->
  fst (new_TestValidationResult w v p) = Raises (Exn exn) ->
  attempt w self prompt p = (Raises (Exn exn), after_request (request prompt) p).
Proof.
  intros H1 H2 H3 H4. rewrite attempt_unfold, H1, H2, H3.
  destruct (new_TestValidationResult_pure w v) as [o [Ho _]].
  rewrite Ho in H4 |- *. cbn in H4. now subst o.
Qed.

(** C3. With no explicit key and no OPENAI_API_KEY the constructor raises
    ValueError, and does so without touching the process (no request has
    gone out); with a key given explicitly that key is the one stored and
    handed to the client; with none given, the key of the environment is. *)
Theorem TestValidator_init_credential :
  forall (w : World) (p : Process),
    (environ_get w "OPENAI_API_KEY" = None ->
     TestValidator_init w None p
     = (Raises (Exn (ValueError
          "OpenAI API key not found. Set OPENAI_API_KEY environment variable.")), p))
    /\ (forall k, k <> EmptyString ->
        TestValidator_init w (Some k) p
        = (match OpenAI_init w (Some k) with
           | Some exn => Raises (Exn exn)
           | None => Returns {| api_key := Some k;
                                client := {| client_api_key := Some k |} |}
           end, p))
    /\ (forall k, k <> EmptyString ->
        environ_get w "OPENAI_API_KEY" = Some k ->
        TestValidator_init w None p
        = (match OpenAI_init w (Some k) with
           | Some exn => Raises (Exn exn)
           | None => Returns {| api_key := Some k;
                                client := {| client_api_key := Some k |} |}
           end, p)).
Proof.
  intros w p. unfold TestValidator_init. repeat split.
  - intros ->. reflexivity.
  - intros k Hk. unfold or_else; cbn.
    apply String.eqb_neq in Hk. rewrite Hk; cbn. rewrite Hk; cbn.
    unfold bind, new_OpenAI. destruct (OpenAI_init w (Some k)); reflexivity.
  - intros k Hk ->. unfold or_else; cbn.
    apply String.eqb_neq in Hk. rewrite Hk; cbn.
    unfold bind, new_OpenAI. destruct (OpenAI_init w (Some k)); reflexivity.
Qed.

Lemma TestValidator_init_credential_samples :
  TestValidator_init Sample.no_key None boot
  = (Raises (Exn (ValueError
       "OpenAI API key not found. Set OPENAI_API_KEY environment variable.")), boot)
  /\ TestValidator_init Sample.no_key (Some "sk-cli") boot
     = (Returns {| api_key := Some "sk-cli";
                   client := {| client_api_key := Some "sk-cli" |} |}, boot)
  /\ TestValidator_init Sample.agrees None boot
     = (Returns {| api_key := Some "sk-test";
                   client := {| client_api_key := Some "sk-test" |} |}, boot).
Proof.
  destruct (TestValidator_init_credential Sample.no_key boot) as [Hnone [Hcli _]].
  destruct (TestValidator_init_credential Sample.agrees boot) as [_ [_ Henv]].
  split; [exact (Hnone eq_refl) |].
  split.
  - apply (Hcli "sk-cli"). discriminate.
  - apply (Henv "sk-test"); [discriminate | reflexivity].
Defined.

(** An empty key counts as none, on the command line and in the
    environment alike. *)
Lemma TestValidator_init_empty_key (w : World) (p : Process) :
  TestValidator_init w (Some EmptyString) p = TestValidator_init w None p
  /\ (environ_get w "OPENAI_API_KEY" = Some EmptyString ->
      TestValidator_init w None p
      = (Raises (Exn (ValueError
           "OpenAI API key not found. Set OPENAI_API_KEY environment variable.")), p)).
Proof.
  split; [reflexivity |]. intros H. unfold TestValidator_init. now rewrite H.
Qed.

Lemma validate_test_result_sends (w : World) (self : TestValidator) (q e a : string)
    (p : Process) :
  sent_during (validate_test_result w self q e a) p = [request (Prompt.build q e a)].
Proof.
  apply sent_during_one.
  destruct (validate_test_result_frame w self q e a p) as [r [p' [-> [_ [_ Hr]]]]].
  exact Hr.
Qed.

(** *** The client on the wire *)

Lemma send_posts_bounds (wire : Client.Wire) (retries nth : nat) (req : Request) :
  (1 <= snd (Client.send wire retries nth req) <= S retries)%nat.
Proof.
  revert nth. induction retries as [| k IH]; intros nth; cbn.
  - destruct (wire nth req) as [response | [|] exn]; cbn; lia.
  - destruct (wire nth req) as [response | [|] exn]; cbn; try lia.
    specialize (IH (S nth)).
    destruct (Client.send wire k (S nth) req) as [o n]. cbn in IH |- *. lia.
Qed.

Lemma send_settled_at_once (wire : Client.Wire) (retries nth : nat) (req : Request) :
  (retries = 0%nat
   \/ (exists response, wire nth req = Client.Answered response)
   \/ (exists exn, wire nth req = Client.Failed false exn)) ->
  snd (Client.send wire retries nth req) = 1%nat.
Proof.
  intros [-> | [[response H] | [exn H]]].
  - cbn. destruct (wire nth req) as [response | [|] exn]; reflexivity.
  - destruct retries; cbn; now rewrite H.
  - destruct retries; cbn; now rewrite H.
Qed.

(** While the failures are of the kind the client retries, it uses all its
    retries. *)
Lemma send_retries_to_the_end (wire : Client.Wire) (retries nth : nat) (req : Request) :
  (forall n, exists exn, wire n req = Client.Failed true exn) ->
  snd (Client.send wire retries nth req) = S retries.
Proof.
  intros Hlost. revert nth. induction retries as [| k IH]; intros nth; cbn.
  - destruct (Hlost nth) as [exn ->]. reflexivity.
  - destruct (Hlost nth) as [exn ->]. specialize (IH (S nth)).
    destruct (Client.send wire k (S nth) req) as [o n]. cbn in IH |- *. now rewrite IH.
Qed.

Lemma posts_during_validate (w : World) (wire : Client.Wire) (retries : nat)
    (self : TestValidator) (q e a : string) (p : Process) :
  posts_during wire retries (validate_test_result w self q e a) p
  = Client.posts wire retries (request (Prompt.build q e a)).
Proof.
  unfold posts_during. rewrite validate_test_result_sends. cbn. lia.
Qed.

(** C6, as the claim has it, fails.  The client the script builds keeps its
    two retries, so when every POST ends in a connection error one call of
    validate_test_result puts three requests on the wire, not one. *)
Lemma three_requests_on_a_dead_wire :
  posts_during Sample.dead_wire Client.DEFAULT_MAX_RETRIES
    (validate_test_result
       (over Sample.offline Sample.dead_wire Client.DEFAULT_MAX_RETRIES)
       Sample.validator "What is the total revenue?" "12977.52"
       "MachineAnswer: $12,977.52") boot = 3%nat
  /\ fst (validate_test_result
            (over Sample.offline Sample.dead_wire Client.DEFAULT_MAX_RETRIES)
            Sample.validator "What is the total revenue?" "12977.52"
            "MachineAnswer: $12,977.52" boot)
     = Returns (failed Sample.connection_error)
  /\ ~ one_request_on_the_wire Sample.offline Sample.dead_wire
        Client.DEFAULT_MAX_RETRIES Sample.validator
        "What is the total revenue?" "12977.52" "MachineAnswer: $12,977.52" boot.
Proof.
  split; [reflexivity |]. split; [reflexivity |].
  unfold one_request_on_the_wire. intros H. vm_compute in H. discriminate H.
Qed.

(** C6, amended.  One call of validate_test_result calls create exactly
    once, whether the call returns or raises: the script repeats nothing.
    The call carries a strict JSON schema whose properties and required
    names are the five fields of the result, with additionalProperties
    false, and a temperature of 0.1, well under the default of 1.  How many
    requests go over the wire is the client's affair: at least one and at
    most one more than its retries (two by default), and exactly one when
    the first is answered or fails in a way the client does not retry. *)
#[warnings="-inexact-float"] Theorem validate_test_result_one_request :
  forall (w : World) (self : TestValidator) (q e a : string) (p : Process),
    let req := request (Prompt.build q e a) in
    sent_during (validate_test_result w self q e a) p = [req]
    /\ (exists json_schema schema props,
          Schema.item "type" (response_format req) = Some (PStr "json_schema")
          /\ Schema.item "json_schema" (response_format req) = Some json_schema
          /\ Schema.item "strict" json_schema = Some (PBool true)
          /\ Schema.requested (response_format req) = Some schema
          /\ Schema.item "type" schema = Some (PStr "object")
          /\ Schema.item "properties" schema = Some (PDict props)
          /\ keys props = fields
          /\ Schema.item "required" schema = Some (PList (map PStr fields))
          /\ Schema.item "additionalProperties" schema = Some (PBool false))
    /\ temperature req = 0.1%float
    /\ PrimFloat.leb 0 (temperature req) && PrimFloat.ltb (temperature req) 1 = true
    /\ forall (wire : Client.Wire) (retries : nat),
         let on_the_wire :=
           posts_during wire retries
             (validate_test_result (over w wire retries) self q e a) p in
         sent_during (validate_test_result (over w wire retries) self q e a) p = [req]
         /\ (1 <= on_the_wire <= S retries)%nat
         /\ (retries = 0%nat -> on_the_wire = 1%nat)
         /\ (forall response,
                wire 0%nat req = Client.Answered response -> on_the_wire = 1%nat)
         /\ (forall exn,
                wire 0%nat req = Client.Failed false exn -> on_the_wire = 1%nat)
         /\ ((forall n, exists exn, wire n req = Client.Failed true exn) ->
             on_the_wire = S retries).
Proof.
  intros w self q e a p req. split; [apply validate_test_result_sends |].
  split; [do 3 eexists; repeat split; reflexivity |].
  split; [reflexivity |]. split; [reflexivity |].
  intros wire retries on_the_wire. subst on_the_wire.
  rewrite posts_during_validate. fold req. unfold Client.posts.
  split; [apply validate_test_result_sends |].
  split; [apply send_posts_bounds |].
  split; [intros Hzero; apply send_settled_at_once; now left |].
  split; [intros response H; apply send_settled_at_once; right; left; now exists response |].
  split; [intros exn H; apply send_settled_at_once; right; right; now exists exn |].
  apply send_retries_to_the_end.
Qed.

Lemma validate_test_result_one_request_samples :
  posts_during Sample.closed_wire Client.DEFAULT_MAX_RETRIES
    (validate_test_result
       (over Sample.offline Sample.closed_wire Client.DEFAULT_MAX_RETRIES)
       Sample.validator "What is the total revenue?" "12977.52"
       "MachineAnswer: $12,977.52") boot = 1%nat
  /\ posts_during Sample.dead_wire Client.DEFAULT_MAX_RETRIES
       (validate_test_result
          (over Sample.offline Sample.dead_wire Client.DEFAULT_MAX_RETRIES)
          Sample.validator "What is the total revenue?" "12977.52"
          "MachineAnswer: $12,977.52") boot = 3%nat.
Proof.
  destruct (validate_test_result_one_request Sample.offline Sample.validator
              "What is the total revenue?" "12977.52" "MachineAnswer: $12,977.52" boot)
    as [_ [_ [_ [_ Hwire]]]].
  destruct (Hwire Sample.closed_wire Client.DEFAULT_MAX_RETRIES)
    as [_ [_ [_ [_ [Hrefused _]]]]].
  destruct (Hwire Sample.dead_wire Client.DEFAULT_MAX_RETRIES)
    as [_ [_ [_ [_ [_ Hlost]]]]].
  split.
  - exact (Hrefused _ eq_refl).
  - apply Hlost. intros n. now exists Sample.connection_error.
Defined.

(** C8. The prompt depends on the question, the expected answer and the
    actual output and on nothing else: two calls with the same three texts
    send the same request, in whatever world, validator and process state.
    The prompt contains the three texts and the four rules: numeric
    tolerance, case-insensitive matching, extraction priority and special
    cases. *)
Theorem prompt_determined_by_inputs :
  forall (q e a : string),
    (forall (w1 w2 : World) (self1 self2 : TestValidator) (p1 p2 : Process),
        sent_during (validate_test_result w1 self1 q e a) p1
        = sent_during (validate_test_result w2 self2 q e a) p2)
    /\ (forall (w : World) (self : TestValidator) (p : Process),
        map messages (sent_during (validate_test_result w self q e a) p)
        = [[PDict [("role", PStr "user"); ("content", PStr (Prompt.build q e a))]]])
    /\ Prompt.Substring q (Prompt.build q e a)
    /\ Prompt.Substring e (Prompt.build q e a)
    /\ Prompt.Substring a (Prompt.build q e a)
    /\ Prompt.Substring Prompt.rule_numeric (Prompt.build q e a)
    /\ Prompt.Substring Prompt.rule_text (Prompt.build q e a)
    /\ Prompt.Substring Prompt.rule_priority (Prompt.build q e a)
    /\ Prompt.Substring Prompt.rule_special (Prompt.build q e a)
    /\ Prompt.occurs "(±0.01 for decimals)" Prompt.rule_numeric = true
    /\ Prompt.occurs "(commas, dollar signs, percent signs)" Prompt.rule_numeric = true
    /\ Prompt.occurs "Case-insensitive matching" Prompt.rule_text = true
    /\ Prompt.occurs "First check MachineAnswer field" Prompt.rule_priority = true
    /\ Prompt.occurs "Then check Answer and SimpleAnswer fields" Prompt.rule_priority = true
    /\ Prompt.occurs "Finally search in Reasoning field" Prompt.rule_priority = true
    /\ Prompt.occurs "Accept either just the X value or the Y value" Prompt.rule_special = true
    /\ Prompt.occurs "Accept with or without % sign" Prompt.rule_special = true
    /\ Prompt.occurs "For count questions" Prompt.rule_special = true.
Proof.
  intros q e a.
  split; [intros; now rewrite !validate_test_result_sends |].
  split; [intros; now rewrite validate_test_result_sends |].
  unfold Prompt.build, Prompt.rule_set.
  split; [apply Substring_middle |].
  split; [exists (Prompt.prompt_intro ++ q ++ Prompt.prompt_expected); eexists;
          rewrite !append_assoc; reflexivity |].
  split; [exists (Prompt.prompt_intro ++ q ++ Prompt.prompt_expected ++ e
                    ++ Prompt.prompt_fields); eexists;
          rewrite !append_assoc; reflexivity |].
  split; [exists (Prompt.prompt_intro ++ q ++ Prompt.prompt_expected ++ e
                    ++ Prompt.prompt_fields ++ a ++ Prompt.prompt_rules_heading); eexists;
          rewrite !append_assoc; reflexivity |].
  split; [exists (Prompt.prompt_intro ++ q ++ Prompt.prompt_expected ++ e
                    ++ Prompt.prompt_fields ++ a ++ Prompt.prompt_rules_heading
                    ++ Prompt.rule_numeric); eexists;
          rewrite !append_assoc; reflexivity |].
  split; [exists (Prompt.prompt_intro ++ q ++ Prompt.prompt_expected ++ e
                    ++ Prompt.prompt_fields ++ a ++ Prompt.prompt_rules_heading
                    ++ Prompt.rule_numeric ++ Prompt.rule_text); eexists;
          rewrite !append_assoc; reflexivity |].
  split; [exists (Prompt.prompt_intro ++ q ++ Prompt.prompt_expected ++ e
                    ++ Prompt.prompt_fields ++ a ++ Prompt.prompt_rules_heading
                    ++ Prompt.rule_numeric ++ Prompt.rule_text ++ Prompt.rule_priority);
          eexists; rewrite !append_assoc; reflexivity |].
  repeat split; vm_compute; reflexivity.
Qed.

(** ** The constructor of the dataclass *)

Lemma new_TestValidationResult_accepts (w : World) (kw : list (string * value))
    (p : Process) :
  (forall k, In k (keys kw) <-> In k fields) ->
  exists r,
    new_TestValidationResult w (PDict kw) p = (Returns r, p)
    /\ lookup "is_correct" kw = Some (is_correct r)
    /\ lookup "extracted_answer" kw = Some (extracted_answer r)
    /\ lookup "explanation" kw = Some (explanation r)
    /\ lookup "confidence" kw = Some (confidence r)
    /\ lookup "answer_location" kw = Some (answer_location r).
Proof.
  intros H. unfold new_TestValidationResult.
  assert (Hnone : find (fun k => negb (mem k fields)) (keys kw) = None)
    by (apply find_stranger_none; intros k; apply H).
  rewrite Hnone.
  assert (Hhas : forall f, In f fields -> exists v, lookup f kw = Some v)
    by (intros f Hf; apply lookup_keys, H, Hf).
  destruct (Hhas "is_correct") as [v1 ->]; [cbn; tauto |].
  destruct (Hhas "extracted_answer") as [v2 ->]; [cbn; tauto |].
  destruct (Hhas "explanation") as [v3 ->]; [cbn; tauto |].
  destruct (Hhas "confidence") as [v4 ->]; [cbn; tauto |].
  destruct (Hhas "answer_location") as [v5 ->]; [cbn; tauto |].
  eexists. repeat split; reflexivity.
Qed.

Lemma new_TestValidationResult_rejects (w : World) (kw : list (string * value))
    (p : Process) :
  ~ (forall k, In k (keys kw) <-> In k fields) ->
  exists exn, new_TestValidationResult w (PDict kw) p = (Raises (Exn exn), p).
Proof.
  intros H. unfold new_TestValidationResult.
  destruct (find (fun k => negb (mem k fields)) (keys kw)) as [k |] eqn:Hfind;
    [eexists; reflexivity |].
  destruct (lookup "is_correct" kw) as [v1 |] eqn:H1; [| eexists; reflexivity].
  destruct (lookup "extracted_answer" kw) as [v2 |] eqn:H2; [| eexists; reflexivity].
  destruct (lookup "explanation" kw) as [v3 |] eqn:H3; [| eexists; reflexivity].
  destruct (lookup "confidence" kw) as [v4 |] eqn:H4; [| eexists; reflexivity].
  destruct (lookup "answer_location" kw) as [v5 |] eqn:H5; [| eexists; reflexivity].
  exfalso. apply H. intros k. split.
  - revert k. now apply find_stranger_none.
  - intros Hk. apply lookup_keys.
    cbn in Hk. destruct Hk as [<- | [<- | [<- | [<- | [<- | []]]]]]; eauto.
Qed.

Lemma new_TestValidationResult_needs_dict (w : World) (v : value) (p : Process) :
  (forall kw, v <> PDict kw) ->
  exists exn, new_TestValidationResult w v p = (Raises (Exn exn), p).
Proof.
  intros H. destruct v; try (eexists; reflexivity). now destruct (H d).
Qed.

(** C9. The reply is not checked for types or ranges.  When its content
    parses to an object whose names are exactly the five fields, the result
    holds the five values as they came; when the parsed object lacks a name
    or has another one, when the parsed value is no object, and when the
    content does not parse, the result is the one of the except clause:
    is_correct false, extracted_answer Error, an explanation with the text
    of the error, confidence 0.0, answer_location N/A. *)
Theorem reply_taken_verbatim_or_rejected :
  forall (w : World) (self : TestValidator) (q e a : string) (p : Process)
         (response : ChatCompletion) (choice : Choice) (rest : list Choice),
    completions_create w (client self) (requests p) (request (Prompt.build q e a))
      = inr response ->
    choices response = choice :: rest ->
    let outcome := fst (validate_test_result w self q e a p) in
    (forall kw,
        json_loads w (content (message choice)) = inr (PDict kw) ->
        (forall k, In k (keys kw) <-> In k fields) ->
        exists r,
          outcome = Returns r
          /\ lookup "is_correct" kw = Some (is_correct r)
          /\ lookup "extracted_answer" kw = Some (extracted_answer r)
          /\ lookup "explanation" kw = Some (explanation r)
          /\ lookup "confidence" kw = Some (confidence r)
          /\ lookup "answer_location" kw = Some (answer_location r))
    /\ (forall kw,
        json_loads w (content (message choice)) = inr (PDict kw) ->
        ~ (forall k, In k (keys kw) <-> In k fields) ->
        exists exn r,
          outcome = Returns r /\ r = failed exn /\ error_shaped exn r)
    /\ (forall v,
        json_loads w (content (message choice)) = inr v ->
        (forall kw, v <> PDict kw) ->
        exists exn r,
          outcome = Returns r /\ r = failed exn /\ error_shaped exn r)
    /\ (forall exn,
        json_loads w (content (message choice)) = inl exn ->
        exists r,
          outcome = Returns r /\ r = failed exn /\ error_shaped exn r).
Proof.
  intros w self q e a p response choice rest Hcall Hchoice outcome.
  subst outcome.
  rewrite validate_test_result_unfold, attempt_unfold, Hcall, Hchoice.
  repeat split.
  - intros kw Hloads Hkeys. rewrite Hloads.
    destruct (new_TestValidationResult_accepts w kw
                (after_request (request (Prompt.build q e a)) p) Hkeys)
      as [r [-> Hr]].
    exists r. split; [reflexivity | exact Hr].
  - intros kw Hloads Hkeys. rewrite Hloads.
    destruct (new_TestValidationResult_rejects w kw
                (after_request (request (Prompt.build q e a)) p) Hkeys)
      as [exn ->].
    exists exn, (failed exn).
    split; [reflexivity |]. split; [reflexivity | apply failed_error_shaped].
  - intros v Hloads Hv. rewrite Hloads.
    destruct (new_TestValidationResult_needs_dict w v
                (after_request (request (Prompt.build q e a)) p) Hv)
      as [exn ->].
    exists exn, (failed exn).
    split; [reflexivity |]. split; [reflexivity | apply failed_error_shaped].
  - intros exn Hloads. rewrite Hloads. exists (failed exn).
    split; [reflexivity |]. split; [reflexivity | apply failed_error_shaped].
Qed.

Lemma reply_taken_verbatim_or_rejected_samples :
  (exists r,
      fst (validate_test_result Sample.sloppy Sample.validator
             "What is the total revenue?" "12977.52" "MachineAnswer: $12,977.52" boot)
      = Returns r
      /\ Some (PStr "false") = Some (is_correct r)
      /\ Some (PStr "12977.52") = Some (extracted_answer r)
      /\ Some (PStr "no match") = Some (explanation r)
      /\ Some (PInt 7) = Some (confidence r)
      /\ Some (PStr "Answer field") = Some (answer_location r))
  /\ (exists exn r,
      fst (validate_test_result Sample.truncated Sample.validator
             "What is the total revenue?" "12977.52" "MachineAnswer: $12,977.52" boot)
      = Returns r
      /\ r = failed exn
      /\ error_shaped exn r)
  /\ (exists r,
      fst (validate_test_result Sample.garbled Sample.validator
             "What is the total revenue?" "12977.52" "MachineAnswer: $12,977.52" boot)
      = Returns r
      /\ r = failed (LibraryError "JSONDecodeError"
                       "Expecting value: line 1 column 1 (char 0)")
      /\ error_shaped (LibraryError "JSONDecodeError"
                         "Expecting value: line 1 column 1 (char 0)") r).
Proof.
  split; [| split].
  - destruct (reply_taken_verbatim_or_rejected Sample.sloppy Sample.validator
                "What is the total revenue?" "12977.52" "MachineAnswer: $12,977.52" boot
                (Sample.replying Sample.loose_text)
                {| message := {| content := Some Sample.loose_text |} |} []
                eq_refl eq_refl) as [Haccepted _].
    apply (Haccepted Sample.loose_items); [reflexivity |].
    intros k; reflexivity.
  - destruct (reply_taken_verbatim_or_rejected Sample.truncated Sample.validator
                "What is the total revenue?" "12977.52" "MachineAnswer: $12,977.52" boot
                (Sample.replying Sample.short_text)
                {| message := {| content := Some Sample.short_text |} |} []
                eq_refl eq_refl) as [_ [Hrejected _]].
    apply (Hrejected Sample.short_items); [reflexivity |].
    intros H. destruct (H "answer_location") as [_ Hin].
    cbn in Hin.
    destruct Hin as [Hk | [Hk | [Hk | [Hk | []]]]]; try discriminate Hk; tauto.
  - destruct (reply_taken_verbatim_or_rejected Sample.garbled Sample.validator
                "What is the total revenue?" "12977.52" "MachineAnswer: $12,977.52" boot
                (Sample.replying "I think the answer is right.")
                {| message := {| content := Some "I think the answer is right." |} |} []
                eq_refl eq_refl) as [_ [_ [_ Hgarbled]]].
    apply Hgarbled. reflexivity.
Defined.

(** ** What main shows of the process *)

(** The result of validate_test_result depends on the process only through
    the requests already sent, which is all the service sees of it. *)
Lemma validate_test_result_outcome (w : World) (self : TestValidator) (q e a : string)
    (p p' : Process) :
  requests p = requests p' ->
  fst (validate_test_result w self q e a p) = fst (validate_test_result w self q e a p').
Proof.
  intros Hreq. rewrite !validate_test_result_unfold, !attempt_unfold, Hreq.
  destruct (completions_create w (client self) (requests p')
              (request (Prompt.build q e a))) as [exn | response]; [reflexivity |].
  destruct (choices response) as [| choice rest]; [reflexivity |].
  destruct (json_loads w (content (message choice))) as [exn | v]; [reflexivity |].
  destruct (new_TestValidationResult_pure w v) as [o [Ho _]].
  rewrite !Ho. destruct o as [r | [exn | c]]; reflexivity.
Qed.

Lemma configure_requests (args : Namespace) (p : Process) :
  requests (snd (configure args p)) = requests p.
Proof. destruct (configure_frame args p) as [p0 [-> [_ [_ [H _]]]]]. exact H. Qed.

(** main always leaves through sys.exit, after one print.  Two runs that
    differ only in the verbose flag and in what the process held besides its
    requests exit alike and print alike. *)
Lemma main_observed (w : World) (args args' : Namespace) (p p' : Process) :
  question args' = question args ->
  expected_answer args' = expected_answer args ->
  actual_output args' = actual_output args ->
  arg_api_key args' = arg_api_key args ->
  requests p' = requests p ->
  exists code doc,
    fst (main w args p) = Raises (SystemExit code)
    /\ fst (main w args' p') = Raises (SystemExit code)
    /\ stdout (snd (main w args p)) = (stdout p ++ [doc])%list
    /\ stdout (snd (main w args' p')) = (stdout p' ++ [doc])%list
    /\ requests (snd (main w args' p')) = requests (snd (main w args p)).
Proof.
  intros Hq He Ha Hkey Hreq.
  destruct (TestValidator_init_pure w (arg_api_key args)) as [o [Hinit _]].
  destruct (main_cases w args p)
    as [[exn [Hi [Hexit [Hout [Hsent _]]]]]
       | [self [r [p1 [Hi [Hv [Hexit [Hout [Hsent _]]]]]]]]];
    destruct (main_cases w args' p')
      as [[exn' [Hi' [Hexit' [Hout' [Hsent' _]]]]]
         | [self' [r' [p1' [Hi' [Hv' [Hexit' [Hout' [Hsent' _]]]]]]]]];
    rewrite Hkey, Hinit in Hi'; rewrite Hinit in Hi; try congruence.
  - assert (exn' = exn) by congruence. subst exn'.
    exists 1, (error_result exn). rewrite Hsent, Hsent'. auto.
  - assert (self' = self) by congruence. subst self'.
    rewrite Hq, He, Ha in Hv'.
    assert (Hsame : Returns r' = Returns r).
    { change (Returns r') with (fst (Returns r', p1')). rewrite <- Hv'.
      change (Returns r) with (fst (Returns r, p1)). rewrite <- Hv.
      apply validate_test_result_outcome.
      now rewrite !configure_requests. }
    injection Hsame as ->.
    exists (if truthy (is_correct r) then 0 else 1), (asdict r).
    rewrite Hsent, Hsent', Hq, He, Ha, Hreq. auto.
Qed.

(** C10. The verbose flag changes the root log level and nothing that is
    observed of the result: with the same texts, the same key and the same
    world, the run with the flag and the run without it print the same
    document, exit with the same status and send the same requests. *)
Theorem verbose_does_not_interfere :
  forall (w : World) (q e a : string) (key : option string) (p : Process),
    let loud := {| question := q; expected_answer := e; actual_output := a;
                   arg_api_key := key; verbose := true |} in
    let quiet := {| question := q; expected_answer := e; actual_output := a;
                    arg_api_key := key; verbose := false |} in
    fst (main w loud p) = fst (main w quiet p)
    /\ exit_status (fst (main w loud p)) = exit_status (fst (main w quiet p))
    /\ stdout (snd (main w loud p)) = stdout (snd (main w quiet p))
    /\ requests (snd (main w loud p)) = requests (snd (main w quiet p))
    /\ run w loud = run w quiet
    /\ level (snd (main w loud p)) = INFO
    /\ level (snd (main w quiet p)) = level p.
Proof.
  intros w q e a key p loud quiet.
  assert (Hobs : forall p0,
             fst (main w loud p0) = fst (main w quiet p0)
             /\ stdout (snd (main w loud p0)) = stdout (snd (main w quiet p0))
             /\ requests (snd (main w loud p0)) = requests (snd (main w quiet p0))).
  { intros p0.
    destruct (main_observed w quiet loud p0 p0 eq_refl eq_refl eq_refl eq_refl eq_refl)
      as [code [doc [Hquiet [Hloud [Hout [Hout' Hsent]]]]]].
    rewrite Hquiet, Hloud, Hout, Hout', Hsent. auto. }
  destruct (Hobs p) as [Hexit [Hout Hsent]].
  repeat split; try assumption.
  - now rewrite Hexit.
  - unfold run. destruct (Hobs boot) as [Hexit0 [Hout0 _]].
    destruct (main w loud boot) as [o1 p1], (main w quiet boot) as [o2 p2].
    cbn in Hexit0, Hout0 |- *. now rewrite Hexit0, Hout0.
  - destruct (main_cases w loud p) as [[exn [_ [_ [_ [_ H]]]]]
                                      | [self [r [p1 [_ [_ [_ [_ [_ H]]]]]]]]];
      exact H.
  - destruct (main_cases w quiet p) as [[exn [_ [_ [_ [_ H]]]]]
                                       | [self [r [p1 [_ [_ [_ [_ [_ H]]]]]]]]];
      exact H.
Qed.

Lemma Substring_refl (x : string) : Prompt.Substring x x.
Proof. exists EmptyString, EmptyString. cbn. now rewrite append_empty. Qed.

(** The dict main prints from its except clause is a result of the error
    shape, written out field by field. *)
Lemma error_result_shaped (e : Exception) :
  exists r, error_result e = asdict r /\ error_shaped e r /\ well_typed r = true.
Proof.
  exists {| is_correct := PBool false; extracted_answer := PStr "Error";
            explanation := PStr (str e); confidence := PFloat 0.0;
            answer_location := PStr "N/A" |}.
  split; [reflexivity |]. split; [| reflexivity].
  repeat split. eexists; split; [reflexivity | apply Substring_refl].
Qed.

(** C7. When the constructor of the validator raises, main catches the
    exception, prints a dict with the five fields (is_correct false,
    extracted_answer Error, explanation the text of the error, confidence
    0.0, answer_location N/A), the shape the except clause of
    validate_test_result gives its own result, and exits with status 1; no
    request has been sent. *)
Theorem main_reports_failed_construction :
  forall (w : World) (args : Namespace) (p : Process) (exn : Exception),
    TestValidator_init w (arg_api_key args) p = (Raises (Exn exn), p) ->
    fst (main w args p) = Raises (SystemExit 1)
    /\ exit_status (fst (main w args p)) = 1
    /\ stdout (snd (main w args p)) = (stdout p ++ [error_result exn])%list
    /\ requests (snd (main w args p)) = requests p
    /\ (exists r, error_result exn = asdict r
                  /\ of_document (error_result exn) = Some r
                  /\ error_shaped exn r)
    /\ of_document (asdict (failed exn)) = Some (failed exn)
    /\ error_shaped exn (failed exn).
Proof.
  intros w args p exn Hraise.
  destruct (TestValidator_init_pure w (arg_api_key args)) as [o [Hinit _]].
  rewrite Hinit in Hraise.
  assert (Hmain : fst (main w args p) = Raises (SystemExit 1)
                  /\ stdout (snd (main w args p)) = (stdout p ++ [error_result exn])%list
                  /\ requests (snd (main w args p)) = requests p).
  { destruct (main_cases w args p)
      as [[exn' [Hi [Hexit [Hout [Hsent _]]]]] | [self [r [p1 [Hi _]]]]];
      rewrite Hinit in Hi.
    - assert (exn' = exn) by congruence. subst exn'. auto.
    - congruence. }
  destruct Hmain as [Hexit [Hout Hsent]].
  split; [exact Hexit |]. split; [now rewrite Hexit |].
  split; [exact Hout |]. split; [exact Hsent |].
  split; [| split; [reflexivity | apply failed_error_shaped]].
  destruct (error_result_shaped exn) as [r [Hr [Hshape _]]].
  exists r. split; [exact Hr |]. split; [| exact Hshape].
  rewrite Hr. now destruct r.
Qed.

Lemma main_reports_failed_construction_no_key :
  TestValidator_init Sample.no_key (arg_api_key Sample.args) boot
  = (Raises (Exn (ValueError
       "OpenAI API key not found. Set OPENAI_API_KEY environment variable.")), boot)
  /\ run Sample.no_key Sample.args
     = (1, [PDict [("is_correct", PBool false);
                   ("extracted_answer", PStr "Error");
                   ("explanation",
                    PStr "OpenAI API key not found. Set OPENAI_API_KEY environment variable.");
                   ("confidence", PFloat 0.0);
                   ("answer_location", PStr "N/A")]]).
Proof.
  split; [reflexivity |].
  destruct (main_reports_failed_construction Sample.no_key Sample.args boot
              (ValueError "OpenAI API key not found. Set OPENAI_API_KEY environment variable.")
              eq_refl) as [Hexit [_ [Hout _]]].
  unfold run. destruct (main Sample.no_key Sample.args boot) as [o p'].
  cbn in Hexit, Hout. now rewrite Hexit, Hout.
Defined.

(** ** Replies that keep the schema *)

(** What conformance to the requested schema says of a reply: it is an
    object with the five names and no other, and its values have the types
    of the fields, the confidence lying between 0 and 1. *)
Lemma conforming_reply (schema v : value) :
  Schema.requested Schema.response_format = Some schema ->
  Schema.valid schema v = true ->
  exists kw r,
    v = PDict kw
    /\ (forall k, In k (keys kw) <-> In k fields)
    /\ lookup "is_correct" kw = Some (is_correct r)
    /\ lookup "extracted_answer" kw = Some (extracted_answer r)
    /\ lookup "explanation" kw = Some (explanation r)
    /\ lookup "confidence" kw = Some (confidence r)
    /\ lookup "answer_location" kw = Some (answer_location r)
    /\ well_typed r = true.
Proof.
  intros Hs Hv. injection Hs as <-.
  destruct v as [| b | z | f | s | l | kw]; try discriminate Hv.
  cbn -[mem keys] in Hv. rewrite !andb_true_iff in Hv.
  destruct Hv as [[H1 [H2 [H3 [H4 [H5 _]]]]]
                    [[[M1 [M2 [M3 [M4 [M5 _]]]]] _] [[Hadd _] _]]].
  apply mem_In, lookup_keys in M1 as [v1 L1], M2 as [v2 L2], M3 as [v3 L3],
      M4 as [v4 L4], M5 as [v5 L5].
  rewrite L1 in H1. rewrite L2 in H2. rewrite L3 in H3.
  rewrite L4 in H4. rewrite L5 in H5.
  exists kw, {| is_correct := v1; extracted_answer := v2; explanation := v3;
                confidence := v4; answer_location := v5 |}.
  split; [reflexivity |]. split.
  - intros k. split.
    + intros Hk. rewrite forallb_forall in Hadd. apply mem_In. exact (Hadd k Hk).
    + intros Hk. apply lookup_keys. cbn in Hk.
      destruct Hk as [<- | [<- | [<- | [<- | [<- | []]]]]]; eauto.
  - repeat (split; [assumption |]).
    unfold well_typed; cbn.
    destruct v1; try discriminate H1. destruct v2; try discriminate H2.
    destruct v3; try discriminate H3. destruct v5; try discriminate H5.
    destruct v4; try discriminate H4; cbn in H4 |- *;
      rewrite !andb_true_iff in H4; rewrite !andb_true_iff; tauto.
Qed.

Lemma failed_well_typed (e : Exception) : well_typed (failed e) = true.
Proof. reflexivity. Qed.


(** With a service that keeps the schema, every result of
    validate_test_result has the announced types. *)
Lemma validate_test_result_well_typed (w : World) (self : TestValidator)
    (q e a : string) (p : Process) :
  keeps_schema w ->
  exists r p', validate_test_result w self q e a p = (Returns r, p')
               /\ well_typed r = true.
Proof.
  intros Hkeeps. rewrite validate_test_result_unfold, attempt_unfold.
  destruct (completions_create w (client self) (requests p)
              (request (Prompt.build q e a))) as [exn | response] eqn:Hcall;
    [do 2 eexists; split; [reflexivity | apply failed_well_typed] |].
  destruct (choices response) as [| choice rest] eqn:Hchoice;
    [do 2 eexists; split; [reflexivity | apply failed_well_typed] |].
  destruct (json_loads w (content (message choice))) as [exn | v] eqn:Hloads;
    [do 2 eexists; split; [reflexivity | apply failed_well_typed] |].
  assert (Hv : Schema.valid Schema.result_schema v = true)
    by exact (Hkeeps (client self) (requests p) (request (Prompt.build q e a))
                response choice rest v Schema.result_schema
                eq_refl eq_refl Hcall Hchoice Hloads).
  destruct (conforming_reply Schema.result_schema v eq_refl Hv)
    as [kw [r [-> [Hkeys [L1 [L2 [L3 [L4 [L5 Htyped]]]]]]]]].
  destruct (new_TestValidationResult_accepts w kw
              (after_request (request (Prompt.build q e a)) p) Hkeys)
    as [r' [-> [L1' [L2' [L3' [L4' L5']]]]]].
  assert (r' = r) by (destruct r, r'; cbn in *; congruence). subst r'.
  do 2 eexists; split; [reflexivity | exact Htyped].
Qed.

(** C5. When the service answers and the parsed reply conforms to the
    schema the request carried, validate_test_result returns a result whose
    confidence is the one of the reply and lies between 0 and 1, bounds
    included. *)
Theorem confidence_within_unit_interval :
  forall (w : World) (self : TestValidator) (q e a : string) (p : Process)
         (response : ChatCompletion) (choice : Choice) (rest : list Choice)
         (v schema : value),
    completions_create w (client self) (requests p) (request (Prompt.build q e a))
      = inr response ->
    choices response = choice :: rest ->
    json_loads w (content (message choice)) = inr v ->
    Schema.requested (response_format (request (Prompt.build q e a))) = Some schema ->
    Schema.valid schema v = true ->
    exists r p',
      validate_test_result w self q e a p = (Returns r, p')
      /\ Schema.item "confidence" v = Some (confidence r)
      /\ in_unit_interval (confidence r) = true.
Proof.
  intros w self q e a p response choice rest v schema Hcall Hchoice Hloads Hs Hv.
  destruct (conforming_reply schema v Hs Hv)
    as [kw [r [-> [Hkeys [L1 [L2 [L3 [L4 [L5 Htyped]]]]]]]]].
  rewrite validate_test_result_unfold, attempt_unfold, Hcall, Hchoice, Hloads.
  destruct (new_TestValidationResult_accepts w kw
              (after_request (request (Prompt.build q e a)) p) Hkeys)
    as [r' [-> [_ [_ [_ [L4' _]]]]]].
  exists r', (after_request (request (Prompt.build q e a)) p).
  split; [reflexivity |]. split; [exact L4' |].
  assert (Hc : confidence r' = confidence r) by (cbn in L4; congruence).
  rewrite Hc. unfold well_typed in Htyped.
  rewrite !andb_true_iff in Htyped. tauto.
Qed.

Lemma confidence_within_unit_interval_agrees :
  exists r p',
    validate_test_result Sample.agrees Sample.validator
      "What is the total revenue?" "12977.52" "MachineAnswer: $12,977.52" boot
    = (Returns r, p')
    /\ Schema.item "confidence" Sample.agreeing = Some (confidence r)
    /\ in_unit_interval (confidence r) = true.
Proof.
  apply (confidence_within_unit_interval Sample.agrees Sample.validator
           "What is the total revenue?" "12977.52" "MachineAnswer: $12,977.52" boot
           (Sample.replying Sample.agreeing_text)
           {| message := {| content := Some Sample.agreeing_text |} |} []
           Sample.agreeing Schema.result_schema);
    reflexivity.
Defined.

Lemma agrees_keeps_schema : keeps_schema Sample.agrees.
Proof.
  intros client history req response choice rest v schema Hfmt Hs Hcall Hchoice Hloads.
  rewrite Hfmt in Hs. injection Hs as <-.
  injection Hcall as <-. injection Hchoice as <- _.
  vm_compute in Hloads. injection Hloads as <-. reflexivity.
Qed.

(** C2, as the claim has it, fails.  In the sloppy world the reply parses
    and has the five names, so main prints it and exits 0; but its
    is_correct is the string false, which Python's if takes for true, and
    not the boolean true. *)
Lemma exit_zero_without_true :
  run Sample.sloppy Sample.args = (0, [Sample.loose])
  /\ Schema.item "is_correct" Sample.loose = Some (PStr "false")
  /\ ~ exit_tells_is_correct Sample.sloppy Sample.args boot.
Proof.
  split; [reflexivity |]. split; [reflexivity |].
  intros [_ [doc [r [Hout [Hdoc Hiff]]]]].
  vm_compute in Hout. injection Hout as <-.
  vm_compute in Hdoc. injection Hdoc as <-.
  destruct Hiff as [Hzero _].
  assert (Habsurd : PStr "false" = PBool true) by (apply Hzero; reflexivity).
  discriminate Habsurd.
Qed.

(** C2, amended.  The status is 0 or 1.  It is 0 exactly when the printed
    is_correct is true in the sense of Python's if; so it is 0 exactly when
    is_correct is true whenever is_correct is a boolean, which it is when
    the service keeps the schema.  A run in which the constructor raised,
    or in which the try block of validate_test_result raised, exits 1. *)
Theorem exit_status_follows_truth :
  forall (w : World) (args : Namespace) (p : Process),
    let status := exit_status (fst (main w args p)) in
    (status = 0 \/ status = 1)
    /\ (exists r,
          stdout (snd (main w args p)) = (stdout p ++ [asdict r])%list
          /\ (status = 0 <-> truthy (is_correct r) = true)
          /\ (forall b, is_correct r = PBool b ->
                        (status = 0 <-> is_correct r = PBool true))
          /\ (keeps_schema w -> (status = 0 <-> is_correct r = PBool true)))
    /\ (forall exn,
          TestValidator_init w (arg_api_key args) p = (Raises (Exn exn), p) ->
          status = 1)
    /\ (forall self exn p1,
          TestValidator_init w (arg_api_key args) p = (Returns self, p) ->
          attempt w self
            (Prompt.build (question args) (expected_answer args) (actual_output args))
            (snd (configure args p)) = (Raises (Exn exn), p1) ->
          status = 1).
Proof.
  intros w args p status. subst status.
  destruct (TestValidator_init_pure w (arg_api_key args)) as [o [Hinit _]].
  assert (Hbool : forall r : TestValidationResult,
             forall b, is_correct r = PBool b ->
             ((if truthy (is_correct r) then 0 else 1) = 0 <-> is_correct r = PBool true)).
  { intros r b ->. destruct b; cbn; split; intros H; try reflexivity; discriminate H. }
  destruct (main_cases w args p)
    as [[exn [Hi [Hexit [Hout _]]]] | [self [r [p1 [Hi [Hv [Hexit [Hout _]]]]]]]];
    rewrite Hinit in Hi; rewrite Hexit; cbn [exit_status].
  - split; [now right |]. split.
    + destruct (error_result_shaped exn) as [r [Hr [[Hfalse _] _]]].
      exists r. rewrite <- Hr. split; [exact Hout |]. rewrite Hfalse. cbn.
      assert (Hno : 1 = 0 <-> PBool false = PBool true)
        by (split; intros H; discriminate H).
      split; [split; intros H; discriminate H |].
      split; [intros _ _; exact Hno | intros _; exact Hno].
    + split; [reflexivity |].
      intros self exn' p1 Hself. rewrite Hinit in Hself. congruence.
  - split; [destruct (truthy (is_correct r)); auto |]. split.
    + exists r. split; [exact Hout |]. split.
      * destruct (truthy (is_correct r)); split; intros H;
          try reflexivity; discriminate H.
      * split; [apply Hbool |].
        intros Hkeeps.
        destruct (validate_test_result_well_typed w self (question args)
                    (expected_answer args) (actual_output args)
                    (snd (configure args p)) Hkeeps) as [r' [p' [Hv' Htyped]]].
        assert (r' = r) by congruence. subst r'.
        unfold well_typed in Htyped. rewrite !andb_true_iff in Htyped.
        destruct Htyped as [[[[Hb _] _] _] _].
        destruct (is_correct r) eqn:Hc; try discriminate Hb.
        rewrite <- Hc. apply (Hbool r b Hc).
    + split.
      * intros exn Hraise. rewrite Hinit in Hraise. congruence.
      * intros self' exn p2 Hself Hattempt. rewrite Hinit in Hself.
        assert (self' = self) by congruence. subst self'.
        rewrite validate_test_result_unfold, Hattempt in Hv.
        injection Hv as <- _. reflexivity.
Qed.

Lemma exit_status_follows_truth_samples :
  (exists r,
      stdout (snd (main Sample.agrees Sample.args boot)) = [asdict r]
      /\ (exit_status (fst (main Sample.agrees Sample.args boot)) = 0
          <-> is_correct r = PBool true))
  /\ exit_status (fst (main Sample.no_key Sample.args boot)) = 1
  /\ exit_status (fst (main Sample.offline Sample.args boot)) = 1.
Proof.
  destruct (exit_status_follows_truth Sample.agrees Sample.args boot)
    as [_ [[r [Hout [_ [_ Hkept]]]] _]].
  destruct (exit_status_follows_truth Sample.no_key Sample.args boot)
    as [_ [_ [Hctor _]]].
  destruct (exit_status_follows_truth Sample.offline Sample.args boot)
    as [_ [_ [_ Hcall]]].
  split; [exists r; split; [exact Hout | exact (Hkept agrees_keeps_schema)] |].
  split.
  - exact (Hctor _ eq_refl).
  - exact (Hcall Sample.validator Sample.connection_error _ eq_refl eq_refl).
Defined.


(** *** Floats that json.dumps writes as numbers *)



(** A reply with the five names and a confidence of NaN is accepted and
    printed; the text json.dumps writes of it is not JSON. *)
Example unsure_run :
  run Sample.unsure Sample.args = (0, [PDict Sample.nan_items])
  /\ dumps_is_json (PDict Sample.nan_items) = false.
Proof. split; reflexivity. Qed.



(** * Further properties of the script *)

(** ** How main runs, step by step *)

Lemma main_unfold (w : World) (args : Namespace) (p : Process) :
  main w args p =
  match TestValidator_init w (arg_api_key args) (snd (configure args p)) with
  | (Returns self, p1) =>
      match validate_test_result w self (question args) (expected_answer args)
              (actual_output args) p1 with
      | (Returns r, p2) =>
          (Raises (SystemExit (if truthy (is_correct r) then 0 else 1)),
           snd (print_json (asdict r) p2))
      | (Raises (Exn e), p2) =>
          (Raises (SystemExit 1),
           snd (print_json (error_result e)
                  (snd (logger_error ("Fatal error: " ++ str e) p2))))
      | (Raises (SystemExit c), p2) => (Raises (SystemExit c), p2)
      end
  | (Raises (Exn e), p1) =>
      (Raises (SystemExit 1),
       snd (print_json (error_result e)
              (snd (logger_error ("Fatal error: " ++ str e) p1))))
  | (Raises (SystemExit c), p1) => (Raises (SystemExit c), p1)
  end.
Proof.
  destruct (configure_frame args p) as [p0 [Hc _]].
  unfold main, try_except, bind. rewrite Hc. cbn [snd].
  destruct (TestValidator_init w (arg_api_key args) p0) as [[self | [e | c]] p1];
    try reflexivity.
  destruct (validate_test_result w self (question args) (expected_answer args)
              (actual_output args) p1) as [[r | [e | c]] p2]; reflexivity.
Qed.

(** Construction does not look at the process: what it does in one state it
    does in every state. *)
Lemma TestValidator_init_anywhere (w : World) (key : option string)
    (o : Outcome TestValidator) (p p' : Process) :
  TestValidator_init w key p = (o, p) -> TestValidator_init w key p' = (o, p').
Proof.
  destruct (TestValidator_init_pure w key) as [o' [Hinit _]].
  rewrite Hinit. intros H. injection H as <-. apply Hinit.
Qed.



Lemma configure_stdout (args : Namespace) (p : Process) :
  stdout (snd (configure args p)) = stdout p.
Proof. destruct (configure_frame args p) as [p0 [-> [H _]]]. exact H. Qed.


Lemma attempt_lands (w : World) (self : TestValidator) (prompt : string)
    (p p1 : Process) (o : Outcome TestValidationResult) :
  attempt w self prompt p = (o, p1) -> p1 = after_request (request prompt) p.
Proof.
  destruct (attempt_frame w self prompt p) as [o' [-> _]].
  intros H. now injection H as _ <-.
Qed.

Lemma append_length (a b : string) :
  String.length (a ++ b) = (String.length a + String.length b)%nat.
Proof. induction a as [| c a IH]; cbn; [reflexivity | now rewrite IH]. Qed.

(** ** The ways a run ends *)

(** X1. Once parse_args has returned the arguments, main never returns
    and never lets an exception escape: whatever the world does, it ends by
    raising SystemExit, with code 0 or 1. *)
Theorem main_leaves_through_sys_exit :
  forall (w : World) (args : Namespace) (p : Process),
    exists code,
      fst (main w args p) = Raises (SystemExit code) /\ (code = 0 \/ code = 1).
Proof.
  intros w args p.
  destruct (main_cases w args p)
    as [[exn [_ [Hexit _]]] | [self [r [p1 [_ [_ [Hexit _]]]]]]].
  - exists 1. split; [exact Hexit | now right].
  - exists (if truthy (is_correct r) then 0 else 1).
    split; [exact Hexit | destruct (truthy (is_correct r)); auto].
Qed.



(** X3. A failure of the call or of the parse never reaches the except
    clause of main: validate_test_result has already turned it into a
    result, which main prints like any other before exiting 1.  The printed
    explanation carries the prefix of the validator, so the document differs
    from the one main builds itself for a failed construction. *)
Theorem service_failure_printed_as_result :
  forall (w : World) (args : Namespace) (p p1 : Process) (self : TestValidator)
         (exn : Exception),
    TestValidator_init w (arg_api_key args) p = (Returns self, p) ->
    attempt w self
      (Prompt.build (question args) (expected_answer args) (actual_output args))
      (snd (configure args p)) = (Raises (Exn exn), p1) ->
    fst (main w args p) = Raises (SystemExit 1)
    /\ stdout (snd (main w args p)) = (stdout p ++ [asdict (failed exn)])%list
    /\ explanation (failed exn)
       = PStr ("Validation failed due to error: " ++ str exn)
    /\ asdict (failed exn) <> error_result exn.
Proof.
  intros w args p p1 self exn Hinit Hattempt.
  rewrite main_unfold.
  rewrite (TestValidator_init_anywhere w _ _ p (snd (configure args p)) Hinit).
  rewrite validate_test_result_unfold, Hattempt.
  apply attempt_lands in Hattempt. subst p1.
  split; [reflexivity |]. split.
  - cbn [snd print_json stdout].
    destruct (logger_error_frame ("Error during validation: " ++ str exn)
                (after_request
                   (request (Prompt.build (question args) (expected_answer args)
                               (actual_output args)))
                   (snd (configure args p)))) as [_ [-> _]].
    cbn [after_request stdout]. now rewrite configure_stdout.
  - split; [reflexivity |].
    unfold asdict, error_result, failed; cbn. intros H.
    injection H as H. apply (f_equal String.length) in H.
    cbn in H. lia.
Qed.

Lemma service_failure_printed_as_result_offline :
  run Sample.offline Sample.args = (1, [asdict (failed Sample.connection_error)])
  /\ asdict (failed Sample.connection_error) <> error_result Sample.connection_error.
Proof.
  destruct (service_failure_printed_as_result Sample.offline Sample.args boot _
              Sample.validator Sample.connection_error eq_refl eq_refl)
    as [Hexit [Hout [_ Hdiff]]].
  split; [| exact Hdiff].
  unfold run. destruct (main Sample.offline Sample.args boot) as [o p'].
  cbn in Hexit, Hout. now rewrite Hexit, Hout.
Defined.

Lemma main_calls (w : World) (args : Namespace) (p : Process) :
  (forall exn,
      TestValidator_init w (arg_api_key args) p = (Raises (Exn exn), p) ->
      sent_during (main w args) p = [])
  /\ (forall self,
      TestValidator_init w (arg_api_key args) p = (Returns self, p) ->
      sent_during (main w args) p
      = [request (Prompt.build (question args) (expected_answer args)
                    (actual_output args))])
  /\ (sent_during (main w args) p = []
      \/ sent_during (main w args) p
         = [request (Prompt.build (question args) (expected_answer args)
                       (actual_output args))]).
Proof.
  assert (Hnone : forall l : list Request, skipn (length l) l = []).
  { induction l as [| x l IH]; [reflexivity | exact IH]. }
  destruct (TestValidator_init_pure w (arg_api_key args)) as [o [Hpure _]].
  destruct (main_cases w args p)
    as [[exn [Hi [_ [_ [Hsent _]]]]] | [self [r [p1 [Hi [_ [_ [_ [Hsent _]]]]]]]]];
    rewrite Hpure in Hi.
  - assert (Hzero : sent_during (main w args) p = [])
      by (unfold sent_during; rewrite Hsent; apply Hnone).
    repeat split.
    + intros _ _. exact Hzero.
    + intros self Hself. rewrite Hpure in Hself. congruence.
    + now left.
  - assert (Hone : sent_during (main w args) p
                   = [request (Prompt.build (question args) (expected_answer args)
                                 (actual_output args))])
      by (apply sent_during_one; exact Hsent).
    repeat split.
    + intros exn Hraise. rewrite Hpure in Hraise. congruence.
    + intros _ _. exact Hone.
    + now right.
Qed.

(** X4. A run makes no call of create when the constructor raises and
    exactly one when it returns; it never makes two.  On the wire this is no
    request at all in the first case and, in every case, at most one more
    than the client has retries. *)
Theorem main_calls_create_at_most_once :
  forall (w : World) (args : Namespace) (p : Process),
    (forall exn,
        TestValidator_init w (arg_api_key args) p = (Raises (Exn exn), p) ->
        sent_during (main w args) p = [])
    /\ (forall self,
        TestValidator_init w (arg_api_key args) p = (Returns self, p) ->
        sent_during (main w args) p
        = [request (Prompt.build (question args) (expected_answer args)
                      (actual_output args))])
    /\ (length (sent_during (main w args) p) <= 1)%nat
    /\ forall (wire : Client.Wire) (retries : nat),
         (posts_during wire retries (main (over w wire retries) args) p
          <= S retries)%nat
         /\ (forall exn,
               TestValidator_init w (arg_api_key args) p = (Raises (Exn exn), p) ->
               posts_during wire retries (main (over w wire retries) args) p = 0%nat).
Proof.
  intros w args p.
  destruct (main_calls w args p) as [Hnone [Hone Heither]].
  split; [exact Hnone |]. split; [exact Hone |].
  split; [destruct Heither as [-> | ->]; cbn; lia |].
  intros wire retries.
  destruct (main_calls (over w wire retries) args p) as [Hnone' [_ Heither']].
  unfold posts_during. split.
  - destruct Heither' as [-> | ->]; cbn [map list_sum fold_right]; [lia |].
    pose proof (send_posts_bounds wire retries 0
                  (request (Prompt.build (question args) (expected_answer args)
                              (actual_output args)))) as Hb.
    unfold Client.posts. lia.
  - intros exn Hraise. now rewrite (Hnone' exn Hraise).
Qed.

Lemma main_calls_create_at_most_once_samples :
  sent_during (main Sample.no_key Sample.args) boot = []
  /\ sent_during (main Sample.offline Sample.args) boot
     = [request (Prompt.build (question Sample.args) (expected_answer Sample.args)
                   (actual_output Sample.args))]
  /\ posts_during Sample.dead_wire Client.DEFAULT_MAX_RETRIES
       (main (over Sample.no_key Sample.dead_wire Client.DEFAULT_MAX_RETRIES)
          Sample.args) boot = 0%nat.
Proof.
  destruct (main_calls_create_at_most_once Sample.no_key Sample.args boot)
    as [Hnone [_ [_ Hwire]]].
  destruct (main_calls_create_at_most_once Sample.offline Sample.args boot)
    as [_ [Hone _]].
  destruct (Hwire Sample.dead_wire Client.DEFAULT_MAX_RETRIES) as [_ Hquiet].
  split; [exact (Hnone _ eq_refl) |].
  split; [exact (Hone Sample.validator eq_refl) | exact (Hquiet _ eq_refl)].
Defined.

(** ** The dataclass and the schema *)


Lemma In_required_names (k : string) :
  In (PStr k) (map PStr fields) <-> In k fields.
Proof.
  rewrite in_map_iff. split.
  - intros [x [Hx Hin]]. injection Hx as ->. exact Hin.
  - intros Hin. now exists k.
Qed.

(** X6. The constructor accepts a dict exactly when its keys are the names
    the schema of the request lists as required: the dataclass and the
    schema sent to the service name the same five fields. *)
Theorem constructor_accepts_the_required_names :
  forall (w : World) (prompt : string) (kw : list (string * value)) (p : Process)
         (schema : value) (names : list value),
    Schema.requested (response_format (request prompt)) = Some schema ->
    Schema.item "required" schema = Some (PList names) ->
    ((exists r, new_TestValidationResult w (PDict kw) p = (Returns r, p))
     <-> (forall k, In k (keys kw) <-> In (PStr k) names)).
Proof.
  intros w prompt kw p schema names Hs Hnames.
  injection Hs as <-. injection Hnames as <-.
  change [PStr "is_correct"; PStr "extracted_answer"; PStr "explanation";
          PStr "confidence"; PStr "answer_location"] with (map PStr fields).
  split.
  - intros [r Hr] k. rewrite In_required_names.
    unfold new_TestValidationResult in Hr.
    destruct (find (fun k => negb (mem k fields)) (keys kw)) eqn:Hfind;
      [discriminate Hr |].
    destruct (lookup "is_correct" kw) eqn:H1; [| discriminate Hr].
    destruct (lookup "extracted_answer" kw) eqn:H2; [| discriminate Hr].
    destruct (lookup "explanation" kw) eqn:H3; [| discriminate Hr].
    destruct (lookup "confidence" kw) eqn:H4; [| discriminate Hr].
    destruct (lookup "answer_location" kw) eqn:H5; [| discriminate Hr].
    split.
    + revert k. now apply find_stranger_none.
    + intros Hk. apply lookup_keys. cbn in Hk.
      destruct Hk as [<- | [<- | [<- | [<- | [<- | []]]]]]; eauto.
  - intros Hkeys.
    destruct (new_TestValidationResult_accepts w kw p) as [r [Hr _]].
    + intros k. rewrite <- In_required_names. apply Hkeys.
    + now exists r.
Qed.

Lemma constructor_accepts_the_required_names_samples :
  (exists r, new_TestValidationResult Sample.sloppy (PDict Sample.loose_items) boot
             = (Returns r, boot))
  /\ ~ (exists r, new_TestValidationResult Sample.sloppy (PDict Sample.short_items) boot
                  = (Returns r, boot)).
Proof.
  split.
  - apply (constructor_accepts_the_required_names Sample.sloppy EmptyString
             Sample.loose_items boot Schema.result_schema (map PStr fields)
             eq_refl eq_refl).
    intros k. rewrite In_required_names. reflexivity.
  - intros Haccepted.
    destruct (constructor_accepts_the_required_names Sample.sloppy EmptyString
                Sample.short_items boot Schema.result_schema (map PStr fields)
                eq_refl eq_refl) as [Hnames _].
    destruct (Hnames Haccepted "answer_location") as [_ Hin].
    assert (Hk : In "answer_location" (keys Sample.short_items))
      by (apply Hin, In_required_names; cbn; tauto).
    cbn in Hk.
    destruct Hk as [Hk | [Hk | [Hk | [Hk | []]]]]; discriminate Hk.
Defined.

(** X7. A reply that conforms to the schema of the request takes the
    success path: validate_test_result returns its five values as they came,
    and they have the types the dataclass announces (bool, str, str, a
    number between 0 and 1, str). *)
Theorem conforming_reply_gives_typed_result :
  forall (w : World) (self : TestValidator) (q e a : string) (p : Process)
         (response : ChatCompletion) (choice : Choice) (rest : list Choice)
         (v schema : value),
    completions_create w (client self) (requests p) (request (Prompt.build q e a))
      = inr response ->
    choices response = choice :: rest ->
    json_loads w (content (message choice)) = inr v ->
    Schema.requested (response_format (request (Prompt.build q e a))) = Some schema ->
    Schema.valid schema v = true ->
    exists r,
      fst (validate_test_result w self q e a p) = Returns r
      /\ Schema.item "is_correct" v = Some (is_correct r)
      /\ Schema.item "extracted_answer" v = Some (extracted_answer r)
      /\ Schema.item "explanation" v = Some (explanation r)
      /\ Schema.item "confidence" v = Some (confidence r)
      /\ Schema.item "answer_location" v = Some (answer_location r)
      /\ well_typed r = true.
Proof.
  intros w self q e a p response choice rest v schema Hcall Hchoice Hloads Hs Hv.
  destruct (conforming_reply schema v Hs Hv)
    as [kw [r [-> [Hkeys [L1 [L2 [L3 [L4 [L5 Htyped]]]]]]]]].
  rewrite validate_test_result_unfold, attempt_unfold, Hcall, Hchoice, Hloads.
  destruct (new_TestValidationResult_accepts w kw
              (after_request (request (Prompt.build q e a)) p) Hkeys)
    as [r' [-> [L1' [L2' [L3' [L4' L5']]]]]].
  assert (r' = r) by (destruct r, r'; cbn in *; congruence). subst r'.
  exists r. cbn [Schema.item fst]. auto 10.
Qed.

Lemma conforming_reply_gives_typed_result_agrees :
  exists r,
    fst (validate_test_result Sample.agrees Sample.validator
           "What is the total revenue?" "12977.52" "MachineAnswer: $12,977.52" boot)
    = Returns r
    /\ Schema.item "is_correct" Sample.agreeing = Some (is_correct r)
    /\ Schema.item "extracted_answer" Sample.agreeing = Some (extracted_answer r)
    /\ Schema.item "explanation" Sample.agreeing = Some (explanation r)
    /\ Schema.item "confidence" Sample.agreeing = Some (confidence r)
    /\ Schema.item "answer_location" Sample.agreeing = Some (answer_location r)
    /\ well_typed r = true.
Proof.
  apply (conforming_reply_gives_typed_result Sample.agrees Sample.validator
           "What is the total revenue?" "12977.52" "MachineAnswer: $12,977.52" boot
           (Sample.replying Sample.agreeing_text)
           {| message := {| content := Some Sample.agreeing_text |} |} []
           Sample.agreeing Schema.result_schema);
    reflexivity.
Defined.

(** ** Edges of the reply and of the key *)

(** X8. A reply that holds no choice is an error like any other: indexing
    the empty list raises IndexError, and validate_test_result returns the
    error result whose explanation ends in list index out of range. *)
Theorem reply_without_choice_reported :
  forall (w : World) (self : TestValidator) (q e a : string) (p : Process)
         (response : ChatCompletion),
    completions_create w (client self) (requests p) (request (Prompt.build q e a))
      = inr response ->
    choices response = [] ->
    fst (validate_test_result w self q e a p)
    = Returns (failed (IndexError "list index out of range"))
    /\ explanation (failed (IndexError "list index out of range"))
       = PStr "Validation failed due to error: list index out of range"
    /\ sent_during (validate_test_result w self q e a) p
       = [request (Prompt.build q e a)].
Proof.
  intros w self q e a p response Hcall Hnone.
  rewrite validate_test_result_unfold, attempt_unfold, Hcall, Hnone.
  split; [reflexivity |]. split; [reflexivity |].
  apply validate_test_result_sends.
Qed.

Lemma reply_without_choice_reported_sample :
  fst (validate_test_result
         (Sample.world (Some "sk-test") (inr {| choices := [] |}))
         Sample.validator "What is the total revenue?" "12977.52"
         "MachineAnswer: $12,977.52" boot)
  = Returns (failed (IndexError "list index out of range")).
Proof.
  apply (reply_without_choice_reported
           (Sample.world (Some "sk-test") (inr {| choices := [] |}))
           Sample.validator "What is the total revenue?" "12977.52"
           "MachineAnswer: $12,977.52" boot {| choices := [] |});
    reflexivity.
Defined.

(** X9. A validator that was constructed holds a key that is not empty, the
    same one its client was built with: the explicit key when that is not
    empty, the key of the environment otherwise.  Construction leaves the
    process as it was. *)
Theorem validator_holds_nonempty_key :
  forall (w : World) (key : option string) (p p' : Process) (self : TestValidator),
    TestValidator_init w key p = (Returns self, p') ->
    exists k,
      k <> EmptyString
      /\ api_key self = Some k
      /\ client_api_key (client self) = Some k
      /\ (key = Some k
          \/ (truthy (of_optional key) = false
              /\ environ_get w "OPENAI_API_KEY" = Some k))
      /\ p' = p.
Proof.
  intros w key p p' self. unfold TestValidator_init, or_else.
  destruct (truthy (of_optional key)) eqn:Hkey.
  - rewrite Hkey. cbn [negb]. destruct key as [k |]; [| discriminate Hkey].
    unfold bind, new_OpenAI. destruct (OpenAI_init w (Some k)); [discriminate |].
    cbn. intros H. injection H as <- <-. exists k.
    cbn in Hkey. apply negb_true_iff, String.eqb_neq in Hkey. auto 10.
  - destruct (environ_get w "OPENAI_API_KEY") as [k |] eqn:Henv; [| discriminate].
    destruct (truthy (of_optional (Some k))) eqn:Hk; [| discriminate].
    cbn [negb]. unfold bind, new_OpenAI.
    destruct (OpenAI_init w (Some k)); [discriminate |].
    cbn. intros H. injection H as <- <-. exists k.
    cbn in Hk. apply negb_true_iff, String.eqb_neq in Hk. auto 10.
Qed.

Lemma validator_holds_nonempty_key_sample :
  exists k,
    k <> EmptyString
    /\ api_key Sample.validator = Some k
    /\ client_api_key (client Sample.validator) = Some k
    /\ (Some EmptyString = Some k
        \/ (truthy (of_optional (Some EmptyString)) = false
            /\ environ_get Sample.agrees "OPENAI_API_KEY" = Some k))
    /\ boot = boot.
Proof.
  exact (validator_holds_nonempty_key Sample.agrees (Some EmptyString) boot boot
           Sample.validator eq_refl).
Defined.

(** X10. An empty key counts as no key.  An empty --api-key gives way to the
    environment, and when the explicit key and OPENAI_API_KEY are each
    missing or empty the constructor raises ValueError, having built no
    client. *)
Theorem empty_key_counts_as_missing :
  forall (w : World) (p : Process),
    TestValidator_init w (Some EmptyString) p = TestValidator_init w None p
    /\ forall key,
         key = None \/ key = Some EmptyString ->
         environ_get w "OPENAI_API_KEY" = None
         \/ environ_get w "OPENAI_API_KEY" = Some EmptyString ->
         TestValidator_init w key p
         = (Raises (Exn (ValueError
              "OpenAI API key not found. Set OPENAI_API_KEY environment variable.")), p).
Proof.
  intros w p. split; [reflexivity |].
  intros key [-> | ->] [Henv | Henv]; unfold TestValidator_init, or_else; cbn;
    now rewrite Henv.
Qed.

Lemma empty_key_counts_as_missing_sample :
  TestValidator_init (Sample.world (Some EmptyString) (inl Sample.connection_error))
    (Some EmptyString) boot
  = (Raises (Exn (ValueError
       "OpenAI API key not found. Set OPENAI_API_KEY environment variable.")), boot).
Proof.
  destruct (empty_key_counts_as_missing
              (Sample.world (Some EmptyString) (inl Sample.connection_error)) boot)
    as [_ Hraises].
  apply Hraises; [now right | now right].
Defined.

(** ** The prompt, the import and reuse *)

(** X11. The three texts are pasted into the prompt as they are, with no
    quoting: a question that contains the label of the expected answer
    moves the border between the two, so two different pairs of question
    and expected answer give the same prompt; the border between expected
    answer and actual output moves in the same way. *)
Theorem prompt_does_not_delimit_inputs :
  forall (x y z a : string),
    Prompt.build (x ++ Prompt.prompt_expected ++ y) z a
    = Prompt.build x (y ++ Prompt.prompt_expected ++ z) a
    /\ x ++ Prompt.prompt_expected ++ y <> x
    /\ Prompt.build a (x ++ Prompt.prompt_fields ++ y) z
       = Prompt.build a x (y ++ Prompt.prompt_fields ++ z)
    /\ x ++ Prompt.prompt_fields ++ y <> x.
Proof.
  intros x y z a. unfold Prompt.build.
  split; [now rewrite !append_assoc |].
  split.
  - intros H. apply (f_equal String.length) in H.
    rewrite !append_length in H. cbn in H. lia.
  - split; [now rewrite !append_assoc |].
    intros H. apply (f_equal String.length) in H.
    rewrite !append_length in H. cbn in H. lia.
Qed.

(** X12. When the client library cannot be imported the program ends
    before main: it writes the install hint to stderr and exits 1 with
    nothing on stdout and no call of create, whatever its arguments.  When
    the import succeeds and parse_args returns the arguments, it prints
    exactly one document. *)
Theorem script_prints_only_after_import :
  forall (importable : bool) (w : World) (args : Namespace) (p : Process),
    exists code,
      fst (script importable w args p) = Raises (SystemExit code)
      /\ (importable = false ->
          code = 1
          /\ stdout (snd (script importable w args p)) = stdout p
          /\ requests (snd (script importable w args p)) = requests p
          /\ stderr (snd (script importable w args p))
             = (stderr p
                ++ ["Error: OpenAI library not installed. Install with: pip install openai"])%list)
      /\ (importable = true ->
          exists doc,
            stdout (snd (script importable w args p)) = (stdout p ++ [doc])%list).
Proof.
  intros [|] w args p.
  - unfold script, basicConfig, bind, setLevel.
    set (p0 := {| level := WARNING; stdout := stdout p; stderr := stderr p;
                  requests := requests p |}).
    destruct (main_cases w args p0)
      as [[exn [_ [Hexit [Hout _]]]] | [self [r [p1 [_ [_ [Hexit [Hout _]]]]]]]].
    + exists 1. split; [exact Hexit |]. split; [discriminate |].
      intros _. now exists (error_result exn).
    + exists (if truthy (is_correct r) then 0 else 1).
      split; [exact Hexit |]. split; [discriminate |].
      intros _. now exists (asdict r).
  - exists 1. split; [reflexivity |]. split; [| discriminate].
    intros _. repeat split; reflexivity.
Qed.

Lemma script_prints_only_after_import_samples :
  (exists code,
      fst (script false Sample.agrees Sample.args boot) = Raises (SystemExit code)
      /\ code = 1
      /\ stdout (snd (script false Sample.agrees Sample.args boot)) = [])
  /\ exists code doc,
       fst (script true Sample.agrees Sample.args boot) = Raises (SystemExit code)
       /\ stdout (snd (script true Sample.agrees Sample.args boot)) = [doc].
Proof.
  destruct (script_prints_only_after_import false Sample.agrees Sample.args boot)
    as [code [Hexit [Hmissing _]]].
  destruct (script_prints_only_after_import true Sample.agrees Sample.args boot)
    as [code' [Hexit' [_ Hprinted]]].
  split.
  - exists code. destruct (Hmissing eq_refl) as [Hcode [Hout _]]. auto.
  - destruct (Hprinted eq_refl) as [doc Hout]. now exists code', doc.
Defined.

Lemma sent_during_all {A : Type} (m : M A) (p : Process) (sent : list Request) :
  requests (snd (m p)) = (requests p ++ sent)%list -> sent_during m p = sent.
Proof.
  unfold sent_during. intros ->.
  induction (requests p) as [| x xs IH]; [reflexivity | exact IH].
Qed.

Lemma two_calls_frame (w : World) (self : TestValidator)
    (q1 e1 a1 q2 e2 a2 : string) (p : Process) :
  exists r1 r2 p',
    bind (validate_test_result w self q1 e1 a1)
      (fun r1 => bind (validate_test_result w self q2 e2 a2)
                   (fun r2 => ret (r1, r2))) p
    = (Returns (r1, r2), p')
    /\ requests p'
       = (requests p ++ [request (Prompt.build q1 e1 a1);
                         request (Prompt.build q2 e2 a2)])%list
    /\ stdout p' = stdout p
    /\ level p' = level p.
Proof.
  destruct (validate_test_result_frame w self q1 e1 a1 p)
    as [r1 [p1 [H1 [Hl1 [Ho1 Hr1]]]]].
  destruct (validate_test_result_frame w self q2 e2 a2 p1)
    as [r2 [p2 [H2 [Hl2 [Ho2 Hr2]]]]].
  exists r1, r2, p2. unfold bind, ret. rewrite H1, H2.
  split; [reflexivity |].
  rewrite Hr2, Hr1, Ho2, Ho1, Hl2, Hl1, <- app_assoc. auto.
Qed.

(** X13. A validator can be used again.  Two calls in a row both return,
    also when the first one failed; each makes its one call of create, in
    the order of the calls; neither call prints to stdout or changes the log
    level.  On the wire the two calls together take at most twice what one
    call may take. *)
Theorem validator_can_be_reused :
  forall (w : World) (self : TestValidator) (q1 e1 a1 q2 e2 a2 : string)
         (p : Process),
    (exists r1 r2 p',
        bind (validate_test_result w self q1 e1 a1)
          (fun r1 => bind (validate_test_result w self q2 e2 a2)
                       (fun r2 => ret (r1, r2))) p
        = (Returns (r1, r2), p')
        /\ requests p'
           = (requests p ++ [request (Prompt.build q1 e1 a1);
                             request (Prompt.build q2 e2 a2)])%list
        /\ stdout p' = stdout p
        /\ level p' = level p)
    /\ forall (wire : Client.Wire) (retries : nat),
         (2 <= posts_during wire retries
                 (bind (validate_test_result (over w wire retries) self q1 e1 a1)
                    (fun r1 =>
                       bind (validate_test_result (over w wire retries) self q2 e2 a2)
                         (fun r2 => ret (r1, r2)))) p
            <= 2 * S retries)%nat.
Proof.
  intros w self q1 e1 a1 q2 e2 a2 p.
  split; [apply two_calls_frame |].
  intros wire retries.
  destruct (two_calls_frame (over w wire retries) self q1 e1 a1 q2 e2 a2 p)
    as [r1 [r2 [p' [Hrun [Hsent _]]]]].
  unfold posts_during.
  rewrite (sent_during_all _ p
             [request (Prompt.build q1 e1 a1); request (Prompt.build q2 e2 a2)]);
    [| now rewrite Hrun].
  cbn [map list_sum fold_right]. unfold Client.posts.
  pose proof (send_posts_bounds wire retries 0 (request (Prompt.build q1 e1 a1))).
  pose proof (send_posts_bounds wire retries 0 (request (Prompt.build q2 e2 a2))).
  lia.
Qed.
